(** * ember_jsonl_to_csv: the feature extraction engine of [EMBERJsonlToCSV]

    A shallow embedding of [ember_jsonl_to_csv.py].  Decoded JSON lines are
    values of [pyval]; every method of the class becomes a function of the
    same name.  A Python call either returns or raises, so methods return in
    [result]; the file system touched by [convert] is a finite map from
    paths to the lines of the file.

    Numbers are modelled as Python has them: [int] is unbounded ([Z]),
    [float] is IEEE binary64 ([spec_float] at precision 53, emax 1024). *)

From Stdlib Require Import ZArith QArith Ascii String List Bool Lia.
From Stdlib Require Import SpecFloat.
From stdpp Require Import gmap strings pretty.

Open Scope string_scope.

(** ** Python values and outcomes *)

(** Exceptions an extractor can let escape. *)
Inductive exn : Set :=
| AttributeError
| TypeError
| IndexError
| KeyError
| OverflowError
| ZeroDivisionError
| FileNotFoundError.

(** The outcome of evaluating a Python expression or call. *)
Inductive result (A : Type) : Type :=
| Ret (a : A)
| Raise (e : exn).
Arguments Ret {A} a.
Arguments Raise {A} e.

#[global] Instance result_ret : MRet result := fun _ a => Ret a.
#[global] Instance result_bind : MBind result := fun _ _ k m =>
  match m with
  | Ret a => k a
  | Raise e => Raise e
  end.

(** What [json.loads] builds: [None], [bool], [int], [float], [str], [list]
    and [dict].  A [dict] keeps its keys in insertion order, which is the
    order [items()] enumerates them in. *)
Unset Elimination Schemes.
Inductive pyval : Type :=
| PNone
| PBool (b : bool)
| PInt (z : Z)
| PFloat (f : spec_float)
| PStr (s : string)
| PList (elems : list pyval)
| PDict (items : list (string * pyval)).
Set Elimination Schemes.

(** [isinstance(value, dict) or isinstance(value, list)] *)
Definition is_complex (value : pyval) : bool :=
  match value with
  | PDict _ | PList _ => true
  | _ => false
  end.

(** ** binary64 arithmetic and the numeric tower *)

Definition prec64 : Z := 53.
Definition emax64 : Z := 1024.

(** [0.0], [float('inf')] and [float('-inf')]. *)
Definition f_zero : spec_float := S754_zero false.
Definition f_inf : spec_float := S754_infinity false.
Definition f_neg_inf : spec_float := S754_infinity true.

(** [float(z)] for an [int]: rounded to nearest even; an [int] beyond the
    binary64 range raises [OverflowError]. *)
Definition float_of_int (z : Z) : result spec_float :=
  match binary_normalize prec64 emax64 z 0 false with
  | S754_infinity _ => Raise OverflowError
  | f => Ret f
  end.

(** [x / y] on two [int]s: the correctly rounded quotient. *)
Definition int_truediv (x y : Z) : result spec_float :=
  if (y =? 0)%Z then Raise ZeroDivisionError
  else
    let '(q, e, l) := SFdiv_core_binary prec64 emax64 (Z.abs x) 0 (Z.abs y) 0 in
    match binary_round_aux prec64 emax64 (xorb (x <? 0)%Z (y <? 0)%Z) q e l with
    | S754_infinity _ => Raise OverflowError
    | f => Ret f
    end.

(** [x / y] on two [float]s. *)
Definition float_truediv (x y : spec_float) : result spec_float :=
  match y with
  | S754_zero _ => Raise ZeroDivisionError
  | _ => Ret (SFdiv prec64 emax64 x y)
  end.

(** The operands Python arithmetic accepts here; [bool] is a subclass of
    [int]. *)
Inductive num : Set :=
| NInt (z : Z)
| NFloat (f : spec_float).

Definition as_num (v : pyval) : option num :=
  match v with
  | PBool b => Some (NInt (Z.b2z b))
  | PInt z => Some (NInt z)
  | PFloat f => Some (NFloat f)
  | _ => None
  end.

(** [acc + value], for a numeric accumulator [acc]; a [value] that is not
    a number raises [TypeError]. *)
Definition py_add (acc value : pyval) : result pyval :=
  match as_num acc, as_num value with
  | Some (NInt x), Some (NInt y) => Ret (PInt (x + y))
  | Some (NInt x), Some (NFloat g) =>
      f ← float_of_int x; Ret (PFloat (SFadd prec64 emax64 f g))
  | Some (NFloat f), Some (NInt y) =>
      g ← float_of_int y; Ret (PFloat (SFadd prec64 emax64 f g))
  | Some (NFloat f), Some (NFloat g) => Ret (PFloat (SFadd prec64 emax64 f g))
  | _, _ => Raise TypeError
  end.

(** [total / count], true division. *)
Definition py_truediv (total count : pyval) : result pyval :=
  match as_num total, as_num count with
  | Some (NInt x), Some (NInt y) => f ← int_truediv x y; Ret (PFloat f)
  | Some (NInt x), Some (NFloat g) =>
      f ← float_of_int x; q ← float_truediv f g; Ret (PFloat q)
  | Some (NFloat f), Some (NInt y) =>
      g ← float_of_int y; q ← float_truediv f g; Ret (PFloat q)
  | Some (NFloat f), Some (NFloat g) => q ← float_truediv f g; Ret (PFloat q)
  | _, _ => Raise TypeError
  end.

(** The value a number stands for, as an extended rational.  Python
    compares [int] with [float] exactly, and on two binary64 values the
    IEEE order is the order of the values they stand for. *)
Inductive xval : Set :=
| XNaN
| XNegInf
| XFin (q : Q)
| XPosInf.

Definition float_value (f : spec_float) : xval :=
  match f with
  | S754_zero _ => XFin 0
  | S754_infinity s => if s then XNegInf else XPosInf
  | S754_nan => XNaN
  | S754_finite s m e => XFin (inject_Z (cond_Zopp s (Zpos m)) * 2 ^ e)
  end.

Definition num_value (n : num) : xval :=
  match n with
  | NInt z => XFin (inject_Z z)
  | NFloat f => float_value f
  end.

Definition Qltb (p q : Q) : bool :=
  match (p ?= q)%Q with
  | Lt => true
  | _ => false
  end.

Definition xlt (a b : xval) : bool :=
  match a, b with
  | XNaN, _ | _, XNaN => false
  | XNegInf, XNegInf => false
  | XNegInf, _ => true
  | _, XNegInf => false
  | XPosInf, _ => false
  | XFin _, XPosInf => true
  | XFin p, XFin q => Qltb p q
  end.

(** [a < b] with a number on either side; anything else against a number
    raises [TypeError]. *)
Definition py_lt (a b : pyval) : result bool :=
  match as_num a, as_num b with
  | Some x, Some y => Ret (xlt (num_value x) (num_value y))
  | _, _ => Raise TypeError
  end.

(** [a > b] *)
Definition py_gt (a b : pyval) : result bool := py_lt b a.

(** The built-in [min(acc, value)]: [value] replaces [acc] when
    [value < acc]. *)
Definition py_min (acc value : pyval) : result pyval :=
  lt ← py_lt value acc; Ret (if lt : bool then value else acc).

(** The built-in [max(acc, value)]: [value] replaces [acc] when
    [value > acc]. *)
Definition py_max (acc value : pyval) : result pyval :=
  gt ← py_gt value acc; Ret (if gt : bool then value else acc).

(** ** Containers *)

(** [len(v)].  A string is held as its bytes: for text beyond ASCII the
    count is of UTF-8 bytes where Python counts code points, which agree
    on whether the string is empty. *)
Definition py_len (v : pyval) : result nat :=
  match v with
  | PList elems => Ret (length elems)
  | PDict items => Ret (length items)
  | PStr s => Ret (String.length s)
  | _ => Raise TypeError
  end.

(** [for x in v]: the elements of a list, the keys of a dict, the
    characters of a string. *)
Definition py_iter (v : pyval) : result (list pyval) :=
  match v with
  | PList elems => Ret elems
  | PDict items => Ret (map (fun kv => PStr (fst kv)) items)
  | PStr s => Ret (map (fun c => PStr (String c EmptyString)) (list_ascii_of_string s))
  | _ => Raise TypeError
  end.

(** [d[key]] on the items of a dict. *)
Fixpoint dict_get (items : list (string * pyval)) (key : string) : option pyval :=
  match items with
  | [] => None
  | (k, x) :: rest => if String.eqb k key then Some x else dict_get rest key
  end.

(** [v[i]] for a literal index [i >= 0].  The keys of a decoded JSON
    object are strings, so an [int] subscript on a dict is a [KeyError].
    A string is indexed by byte, which is Python's indexing for ASCII
    text. *)
Definition py_index (v : pyval) (i : nat) : result pyval :=
  match v with
  | PList elems =>
      match nth_error elems i with
      | Some x => Ret x
      | None => Raise IndexError
      end
  | PStr s =>
      match String.get i s with
      | Some c => Ret (PStr (String c EmptyString))
      | None => Raise IndexError
      end
  | PDict _ => Raise KeyError
  | _ => Raise TypeError
  end.

(** [v[key]] for a literal string [key]. *)
Definition py_field (v : pyval) (key : string) : result pyval :=
  match v with
  | PDict items =>
      match dict_get items key with
      | Some x => Ret x
      | None => Raise KeyError
      end
  | _ => Raise TypeError
  end.

(** ** The generic recursive search *)

(** [_search_and_get(json_data, feature)]: walks the items of [json_data]
    in order; a key equal to [feature] returns its value at once, a dict
    value is searched recursively, and in a list value every dict element
    is.  The pair is Python's [(status, value)]; [(False, None)] is the
    result of falling off the loop.  [json_data.items()] on anything but a
    dict raises [AttributeError]. *)
Fixpoint _search_and_get (json_data : pyval) (feature : string) {struct json_data}
  : result (bool * pyval) :=
  match json_data with
  | PDict items =>
      (fix for_items (its : list (string * pyval)) : result (bool * pyval) :=
         match its with
         | [] => Ret (false, PNone)
         | (key, value) :: its' =>
             if String.eqb key feature then Ret (true, value)
             else
               match value with
               | PDict _ =>
                   match _search_and_get value feature with
                   | Ret (true, temp_value) => Ret (true, temp_value)
                   | Ret (false, _) => for_items its'
                   | Raise e => Raise e
                   end
               | PList elems =>
                   match
                     (fix for_elems (es : list pyval) : result (bool * pyval) :=
                        match es with
                        | [] => Ret (false, PNone)
                        | item :: es' =>
                            match item with
                            | PDict _ =>
                                match _search_and_get item feature with
                                | Ret (true, temp_value) => Ret (true, temp_value)
                                | Ret (false, _) => for_elems es'
                                | Raise e => Raise e
                                end
                            | _ => for_elems es'
                            end
                        end) elems
                   with
                   | Ret (true, temp_value) => Ret (true, temp_value)
                   | Ret (false, _) => for_items its'
                   | Raise e => Raise e
                   end
               | _ => for_items its'
               end
         end) items
  | _ => Raise AttributeError
  end.

(** The two loops of [_search_and_get], named so that they can be unfolded
    one iteration at a time. *)
Definition search_elems (feature : string) : list pyval -> result (bool * pyval) :=
  fix for_elems (es : list pyval) : result (bool * pyval) :=
    match es with
    | [] => Ret (false, PNone)
    | item :: es' =>
        match item with
        | PDict _ =>
            match _search_and_get item feature with
            | Ret (true, temp_value) => Ret (true, temp_value)
            | Ret (false, _) => for_elems es'
            | Raise e => Raise e
            end
        | _ => for_elems es'
        end
    end.

Definition search_items (feature : string)
  : list (string * pyval) -> result (bool * pyval) :=
  fix for_items (its : list (string * pyval)) : result (bool * pyval) :=
    match its with
    | [] => Ret (false, PNone)
    | (key, value) :: its' =>
        if String.eqb key feature then Ret (true, value)
        else
          match value with
          | PDict _ =>
              match _search_and_get value feature with
              | Ret (true, temp_value) => Ret (true, temp_value)
              | Ret (false, _) => for_items its'
              | Raise e => Raise e
              end
          | PList elems =>
              match search_elems feature elems with
              | Ret (true, temp_value) => Ret (true, temp_value)
              | Ret (false, _) => for_items its'
              | Raise e => Raise e
              end
          | _ => for_items its'
          end
    end.

(** ** Data-directory extractors *)

(** The class body defines [_get_debug_size] twice.  This is the first
    definition (it reads ["size"]); the second one below replaces it when
    the class is created, so no call ever reaches this one. *)
Definition _get_debug_size_shadowed (json_data : pyval) : result (bool * pyval) :=
  '(status, datadirectories) ← _search_and_get json_data "datadirectories";
  if negb status then Ret (false, PNone)
  else
    n ← py_len datadirectories;
    if Nat.eqb n 0 then Ret (true, PFloat f_zero)
    else
      entry ← py_index datadirectories 6;
      debug_size ← py_field entry "size";
      Ret (true, debug_size).

(** The second definition of [_get_debug_size], the one the class keeps:
    it reads ["virtual_address"]. *)
Definition _get_debug_size (json_data : pyval) : result (bool * pyval) :=
  '(status, datadirectories) ← _search_and_get json_data "datadirectories";
  if negb status then Ret (false, PNone)
  else
    n ← py_len datadirectories;
    if Nat.eqb n 0 then Ret (true, PFloat f_zero)
    else
      entry ← py_index datadirectories 6;
      debug_rva ← py_field entry "virtual_address";
      Ret (true, debug_rva).

Definition _get_debug_rva (json_data : pyval) : result (bool * pyval) :=
  '(status, datadirectories) ← _search_and_get json_data "datadirectories";
  if negb status then Ret (false, PNone)
  else
    n ← py_len datadirectories;
    if Nat.eqb n 0 then Ret (true, PFloat f_zero)
    else
      entry ← py_index datadirectories 6;
      debug_rva ← py_field entry "virtual_address";
      Ret (true, debug_rva).

Definition _get_iat_rva (json_data : pyval) : result (bool * pyval) :=
  '(status, datadirectories) ← _search_and_get json_data "datadirectories";
  if negb status then Ret (false, PNone)
  else
    n ← py_len datadirectories;
    if Nat.eqb n 0 then Ret (true, PFloat f_zero)
    else
      entry ← py_index datadirectories 12;
      iat_rva ← py_field entry "virtual_address";
      Ret (true, iat_rva).

Definition _get_export_size (json_data : pyval) : result (bool * pyval) :=
  '(status, datadirectories) ← _search_and_get json_data "datadirectories";
  if negb status then Ret (false, PNone)
  else
    n ← py_len datadirectories;
    if Nat.eqb n 0 then Ret (true, PFloat f_zero)
    else
      entry ← py_index datadirectories 0;
      export_size ← py_field entry "size";
      Ret (true, export_size).

Definition _get_export_rva (json_data : pyval) : result (bool * pyval) :=
  '(status, datadirectories) ← _search_and_get json_data "datadirectories";
  if negb status then Ret (false, PNone)
  else
    n ← py_len datadirectories;
    if Nat.eqb n 0 then Ret (true, PFloat f_zero)
    else
      entry ← py_index datadirectories 0;
      export_rva ← py_field entry "size";
      Ret (true, export_rva).

Definition _get_resource_size (json_data : pyval) : result (bool * pyval) :=
  '(status, datadirectories) ← _search_and_get json_data "datadirectories";
  if negb status then Ret (false, PNone)
  else
    n ← py_len datadirectories;
    if Nat.eqb n 0 then Ret (true, PFloat f_zero)
    else
      entry ← py_index datadirectories 2;
      resource_size ← py_field entry "size";
      Ret (true, resource_size).

(** ** Section aggregates *)

(** The [for section in sections] loop of the three aggregate shapes.
    [step] is the loop's update of its accumulator ([+=], [min], [max]).
    [None] is the early [return (False, None)] taken when [feature] is not
    found in a section; [Some acc] is the accumulator after the last
    section. *)
Fixpoint for_sections (step : pyval -> pyval -> result pyval) (feature : string)
    (sections : list pyval) (acc : pyval) : result (option pyval) :=
  match sections with
  | [] => Ret (Some acc)
  | section :: rest =>
      '(status, value) ← _search_and_get section feature;
      if status : bool then
        acc' ← step acc value;
        for_sections step feature rest acc'
      else Ret None
  end.

(** The body shared by the three mean extractors, which differ only in
    the name of the per-section field. *)
Definition sections_mean (feature : string) (json_data : pyval) : result (bool * pyval) :=
  '(status, sections) ← _search_and_get json_data "sections";
  if negb status then Ret (false, PNone)
  else
    n ← py_len sections;
    if Nat.eqb n 0 then Ret (true, PFloat f_zero)
    else
      secs ← py_iter sections;
      r ← for_sections py_add feature secs (PInt 0);
      match r with
      | None => Ret (false, PNone)
      | Some total =>
          mean ← py_truediv total (PInt (Z.of_nat n));
          Ret (true, mean)
      end.

(** The body shared by the three minimum extractors. *)
Definition sections_min (feature : string) (json_data : pyval) : result (bool * pyval) :=
  '(status, sections) ← _search_and_get json_data "sections";
  if negb status then Ret (false, PNone)
  else
    n ← py_len sections;
    if Nat.eqb n 0 then Ret (true, PFloat f_zero)
    else
      secs ← py_iter sections;
      r ← for_sections py_min feature secs (PFloat f_inf);
      match r with
      | None => Ret (false, PNone)
      | Some lowest => Ret (true, lowest)
      end.

(** The body shared by the three maximum extractors. *)
Definition sections_max (feature : string) (json_data : pyval) : result (bool * pyval) :=
  '(status, sections) ← _search_and_get json_data "sections";
  if negb status then Ret (false, PNone)
  else
    n ← py_len sections;
    if Nat.eqb n 0 then Ret (true, PFloat f_zero)
    else
      secs ← py_iter sections;
      r ← for_sections py_max feature secs (PFloat f_neg_inf);
      match r with
      | None => Ret (false, PNone)
      | Some highest => Ret (true, highest)
      end.

Definition _get_sections_mean_entropy := sections_mean "entropy".
Definition _get_sections_min_entropy := sections_min "entropy".
Definition _get_sections_max_entropy := sections_max "entropy".
Definition _get_sections_mean_raw_size := sections_mean "size".
Definition _get_sections_min_raw_size := sections_min "size".
Definition _get_sections_max_raw_size := sections_max "size".
Definition _get_sections_mean_virtual_size := sections_mean "vsize".
Definition _get_sections_min_virtual_size := sections_min "vsize".
Definition _get_sections_max_virtual_size := sections_max "vsize".

(** ** The class *)

(** An instance holds the feature list it was built with. *)
Record EMBERJsonlToCSV : Type := { _features : list string }.

Definition target : string := "label".

(** [features.remove(x)]: drops the first element equal to [x]. *)
Fixpoint list_remove (x : string) (features : list string) : list string :=
  match features with
  | [] => []
  | y :: rest => if String.eqb y x then rest else y :: list_remove x rest
  end.

(** [__init__(self, features)] *)
Definition __init__ (features : list string) : EMBERJsonlToCSV :=
  let features :=
    if existsb (fun y => String.eqb y target) features
    then list_remove target features
    else features in
  {| _features := (features ++ [target])%list |}.

(** The [if]/[elif] chain of [convert] that picks the extractor of a
    feature; any other name goes to the generic search. *)
Definition extract (json_data : pyval) (feature : string) : result (bool * pyval) :=
  if String.eqb feature "sections_mean_entropy" then _get_sections_mean_entropy json_data
  else if String.eqb feature "sections_min_entropy" then _get_sections_min_entropy json_data
  else if String.eqb feature "sections_max_entropy" then _get_sections_max_entropy json_data
  else if String.eqb feature "sections_mean_rawsize" then _get_sections_mean_raw_size json_data
  else if String.eqb feature "sections_min_rawsize" then _get_sections_min_raw_size json_data
  else if String.eqb feature "sections_max_rawsize" then _get_sections_max_raw_size json_data
  else if String.eqb feature "sections_mean_virtualsize" then _get_sections_mean_virtual_size json_data
  else if String.eqb feature "sections_min_virtualsize" then _get_sections_min_virtual_size json_data
  else if String.eqb feature "sections_max_virtualsize" then _get_sections_max_virtual_size json_data
  else if String.eqb feature "debug_size" then _get_debug_size json_data
  else if String.eqb feature "debug_rva" then _get_debug_rva json_data
  else if String.eqb feature "iat_rva" then _get_iat_rva json_data
  else if String.eqb feature "export_size" then _get_export_size json_data
  else if String.eqb feature "export_rva" then _get_export_rva json_data
  else if String.eqb feature "resource_size" then _get_resource_size json_data
  else _search_and_get json_data feature.

(** How the [for feature in self._features] loop of [convert] ends for one
    record.  [NotExtracted] is the branch that prints "Feature ... could
    not be extracted."; [ComplexObject] the one that prints "Feature ... is
    a complex object."; [RowRaised] an exception that escapes an
    extractor. *)
Inductive row_outcome : Type :=
| RowOk (data : gmap string pyval)
| NotExtracted (feature : string)
| ComplexObject (feature : string)
| RowRaised (e : exn).

(** The [for feature in self._features] loop, filling the dict [data]. *)
Fixpoint for_features (features : list string) (json_data : pyval)
    (data : gmap string pyval) : row_outcome :=
  match features with
  | [] => RowOk data
  | feature :: rest =>
      match extract json_data feature with
      | Raise e => RowRaised e
      | Ret (status, value) =>
          if negb status then NotExtracted feature
          else if is_complex value then ComplexObject feature
          else for_features rest json_data (<[feature := value]> data)
      end
  end.

(** One record of [convert]: [data = {}] and the feature loop. *)
Definition project (self : EMBERJsonlToCSV) (json_data : pyval) : row_outcome :=
  for_features (_features self) json_data ∅.

(** The cells [DictWriter.writerow(data)] hands to the CSV writer: the
    value of every field name, in the order of [fieldnames]. *)
Definition row_cells (fieldnames : list string) (data : gmap string pyval) : list pyval :=
  map (fun f => default (PStr "") (data !! f)) fieldnames.

(** The row [convert] writes for a record, if it writes one. *)
Definition emitted_row (self : EMBERJsonlToCSV) (json_data : pyval) : option (list pyval) :=
  match project self json_data with
  | RowOk data => Some (row_cells (_features self) data)
  | _ => None
  end.

(** ** The conversion entry point *)

Section Convert.

(** Collaborators from the Python library: [json.loads] ([None] when it
    raises [JSONDecodeError]), [os.path.splitext(p)[0]], and the line
    the CSV writer writes for a list of cells. *)
Variable json_loads : string -> option pyval.
Variable splitext_root : string -> string.
Variable csv_line : list pyval -> string.

(** [check_file_path(self, file_path)] *)
Definition check_file_path (fs : gmap string (list string)) (file_path : string) : bool :=
  if negb (bool_decide (is_Some (fs !! file_path))) then false else true.

(** A line written through the open CSV file. *)
Definition write_line (csv_file_path line : string) (fs : gmap string (list string))
  : gmap string (list string) :=
  <[csv_file_path := (default [] (fs !! csv_file_path) ++ [line])%list]> fs.

(** The [for line in file] loop.  In the [except] branch [e.msg] is a
    [str], so [print(e.msg())] raises [TypeError] before [os.remove] is
    reached. *)
Fixpoint for_lines (self : EMBERJsonlToCSV) (csv_file_path : string)
    (lines : list string) (fs : gmap string (list string))
  : result bool * gmap string (list string) :=
  match lines with
  | [] => (Ret true, fs)
  | line :: rest =>
      match json_loads line with
      | None => (Raise TypeError, fs)
      | Some json_data =>
          match project self json_data with
          | RowOk data =>
              for_lines self csv_file_path rest
                (write_line csv_file_path (csv_line (row_cells (_features self) data)) fs)
          | NotExtracted _ | ComplexObject _ => (Ret false, delete csv_file_path fs)
          | RowRaised e => (Raise e, fs)
          end
      end
  end.

(** [convert(self, file_path)] on the file system [fs]: what it returns,
    and the file system it leaves. *)
Definition convert (self : EMBERJsonlToCSV) (fs : gmap string (list string))
    (file_path : string) : result bool * gmap string (list string) :=
  if negb (check_file_path fs file_path) then (Ret false, fs)
  else
    let csv_file_path := splitext_root file_path ++ ".csv" in
    if bool_decide (is_Some (fs !! csv_file_path)) then (Ret false, fs)
    else
      let fs := <[csv_file_path := [csv_line (map PStr (_features self))]]> fs in
      match fs !! file_path with
      | Some lines => for_lines self csv_file_path lines fs
      | None => (Raise FileNotFoundError, fs)
      end.

End Convert.

(** ** The traversal the search is specified by *)

(** The entries met by a depth-first pre-order walk of a record, as the
    specification words it: every entry of a mapping in enumeration order,
    each followed at once by the entries below it -- those of its value
    when the value is a mapping, those of the mapping-typed elements, in
    order, when the value is a sequence.  Elements that are not mappings
    are not entered. *)
Fixpoint preorder (node : pyval) : list (string * pyval) :=
  match node with
  | PDict items =>
      (fix walk_items (its : list (string * pyval)) : list (string * pyval) :=
         match its with
         | [] => []
         | (key, value) :: its' =>
             ((key, value) ::
                match value with
                | PDict _ => preorder value
                | PList elems =>
                    (fix walk_elems (es : list pyval) : list (string * pyval) :=
                       match es with
                       | [] => []
                       | item :: es' =>
                           (match item with
                            | PDict _ => preorder item
                            | _ => []
                            end ++ walk_elems es')%list
                       end) elems
                | _ => []
                end ++ walk_items its')%list
         end) items
  | _ => []
  end.

Definition preorder_elems : list pyval -> list (string * pyval) :=
  fix walk_elems (es : list pyval) : list (string * pyval) :=
    match es with
    | [] => []
    | item :: es' =>
        (match item with
         | PDict _ => preorder item
         | _ => []
         end ++ walk_elems es')%list
    end.

Definition below (value : pyval) : list (string * pyval) :=
  match value with
  | PDict _ => preorder value
  | PList elems => preorder_elems elems
  | _ => []
  end.

Definition preorder_items : list (string * pyval) -> list (string * pyval) :=
  fix walk_items (its : list (string * pyval)) : list (string * pyval) :=
    match its with
    | [] => []
    | (key, value) :: its' => ((key, value) :: below value ++ walk_items its')%list
    end.

(** The first entry of a walk whose key is [feature]. *)
Definition first_match (feature : string) (walk : list (string * pyval))
  : option (string * pyval) :=
  find (fun kv => String.eqb (fst kv) feature) walk.

(** The search outcome the specification assigns to a walk: [Found] of
    the first matching entry's value, else [NotFound]. *)
Definition outcome_of (m : option (string * pyval)) : bool * pyval :=
  match m with
  | Some (_, value) => (true, value)
  | None => (false, PNone)
  end.

(** ** Notions the properties are stated with *)

(** What the search does below an entry whose key did not match. *)
Definition search_below (feature : string) (value : pyval) : result (bool * pyval) :=
  match value with
  | PDict _ => _search_and_get value feature
  | PList elems => search_elems feature elems
  | _ => Ret (false, PNone)
  end.

(** How often [x] occurs in a feature list. *)
Fixpoint occurrences (x : string) (features : list string) : nat :=
  match features with
  | [] => 0
  | y :: rest => (if String.eqb y x then 1 else 0) + occurrences x rest
  end.

(** Feature [g] resolves on [json_data] to a value that is neither a dict
    nor a list. *)
Definition resolves_scalar (json_data : pyval) (g : string) : Prop :=
  exists x, extract json_data g = Ret (true, x) /\ is_complex x = false.

(** A JSON number: an [int], or a [float] other than NaN. *)
Definition is_number (v : pyval) : bool :=
  match v with
  | PInt _ => true
  | PFloat S754_nan => false
  | PFloat _ => true
  | _ => false
  end.

(** The extended rational a number stands for. *)
Definition value_of (v : pyval) : xval :=
  match as_num v with
  | Some n => num_value n
  | None => XNaN
  end.

(** The loop accumulator after [values], with no lookups in between. *)
Fixpoint fold_step (step : pyval -> pyval -> result pyval) (values : list pyval)
    (acc : pyval) : result pyval :=
  match values with
  | [] => Ret acc
  | value :: rest => acc' ← step acc value; fold_step step rest acc'
  end.

(** Python's [sum(values)]: [+] from the left, starting at the [int] 0. *)
Definition py_sum (values : list pyval) : result pyval :=
  fold_step py_add values (PInt 0).

(** The arithmetic mean as the specification words it: the sum divided by
    the count, [sum(values) / len(values)]. *)
Definition arithmetic_mean (values : list pyval) : result pyval :=
  total ← py_sum values;
  py_truediv total (PInt (Z.of_nat (length values))).

(** [m] is a minimum of [values] under [<]: one of them, with none of
    them below it. *)
Definition is_minimum (m : pyval) (values : list pyval) : Prop :=
  In m values /\ Forall (fun x => py_lt x m = Ret false) values.

(** [m] is a maximum of [values] under [<]: one of them, with none of
    them above it. *)
Definition is_maximum (m : pyval) (values : list pyval) : Prop :=
  In m values /\ Forall (fun x => py_lt m x = Ret false) values.

(** ** Sample records and collaborators for the examples *)

(** A record with a 13-entry table: entry [i] has ["size"] [10 + i] and
    ["virtual_address"] [100 + i]. *)
Definition directory_entry (i : nat) : pyval :=
  PDict [("size", PInt (10 + Z.of_nat i)); ("virtual_address", PInt (100 + Z.of_nat i))].

(** A record whose table follows a nested header. *)
Definition sample_directories : pyval :=
  PDict [("header", PDict [("optional", PDict [("major_linker_version", PInt 14)])]);
         ("datadirectories", PList (map directory_entry (seq 0 13)));
         ("label", PInt 1)].

(** The floats [1.0], [3.5] and [2.25]. *)
Definition f_1_0 : spec_float := S754_finite false 4503599627370496 (-52).
Definition f_3_5 : spec_float := S754_finite false 7881299347898368 (-51).
Definition f_2_25 : spec_float := S754_finite false 5066549580791808 (-51).

(** A record with two sections, of entropy [1.0] and [3.5]. *)
Definition sample_sections : pyval :=
  PDict [("section",
          PDict [("entry", PStr ".text");
                 ("sections",
                  PList [PDict [("name", PStr ".text"); ("size", PInt 512);
                                ("entropy", PFloat f_1_0); ("vsize", PInt 500)];
                         PDict [("name", PStr ".data"); ("size", PInt 1024);
                                ("entropy", PFloat f_3_5); ("vsize", PInt 4096)]])]);
         ("label", PInt 0)].

(** The last position of [c] in [p], or [-1]: [p.rfind(c)]. *)
Definition rfind (c : ascii) (p : string) : Z :=
  (fix scan (cs : list ascii) (i found : Z) : Z :=
     match cs with
     | [] => found
     | x :: cs' => scan cs' (i + 1)%Z (if Ascii.eqb x c then i else found)
     end) (list_ascii_of_string p) 0%Z (-1)%Z.

(** [os.path.splitext(p)[0]] on a POSIX path: [p] up to its last dot,
    when that dot comes after the last slash and after a character of the
    file name that is not a dot. *)
Definition posix_splitext_root (p : string) : string :=
  let sepIndex := rfind "/"%char p in
  let dotIndex := rfind "."%char p in
  if (sepIndex <? dotIndex)%Z then
    let leading :=
      substring (Z.to_nat (sepIndex + 1)) (Z.to_nat (dotIndex - sepIndex - 1)) p in
    if forallb (Ascii.eqb "."%char) (list_ascii_of_string leading) then p
    else substring 0 (Z.to_nat dotIndex) p
  else p.

(** The double-quote character. *)
Definition dquote : string := String (Ascii.ascii_of_nat 34) EmptyString.

(** The line [{"label": 1}]. *)
Definition labelled_line : string := "{" ++ dquote ++ "label" ++ dquote ++ ": 1}".

(** A decoder that knows the lines of the examples; it rejects every
    other line, as [json.loads] rejects [not json]. *)
Definition sample_loads (line : string) : option pyval :=
  if String.eqb line labelled_line then Some (PDict [("label", PInt 1)])
  else if String.eqb line "{}" then Some (PDict [])
  else None.

(** A CSV line for the cells of the examples: strings and integers,
    joined by commas. *)
Definition sample_csv_line (cells : list pyval) : string :=
  String.concat ","
    (map (fun cell =>
            match cell with
            | PStr s => s
            | PInt z => pretty z
            | _ => ""
            end) cells).

(** ** Tables read off the dispatch *)

(** The aggregate features of each per-section field: the field's name
    in a section, then the feature names of its mean, minimum and
    maximum. *)
Definition aggregate_fields : list (string * string * string * string) :=
  [("entropy", "sections_mean_entropy", "sections_min_entropy", "sections_max_entropy");
   ("size", "sections_mean_rawsize", "sections_min_rawsize", "sections_max_rawsize");
   ("vsize", "sections_mean_virtualsize", "sections_min_virtualsize",
    "sections_max_virtualsize")].

(** The data-directory features with the position and the field each one
    reads, as the class ends up binding them. *)
Definition directory_slots : list (string * nat * string) :=
  [("debug_size", 6, "virtual_address");
   ("debug_rva", 6, "virtual_address");
   ("iat_rva", 12, "virtual_address");
   ("export_size", 0, "size");
   ("export_rva", 0, "size");
   ("resource_size", 2, "size")].

(** The fifteen feature names with an extractor of their own. *)
Definition special_features : list string :=
  (flat_map (fun '(_, mean, lowest, highest) => [mean; lowest; highest]) aggregate_fields
   ++ map (fun slot => fst (fst slot)) directory_slots)%list.

(** [isinstance(value, dict)] *)
Definition is_dict (value : pyval) : bool :=
  match value with
  | PDict _ => true
  | _ => false
  end.

(** A value the search does not enter: not a mapping, and not a sequence
    with a mapping among its elements. *)
Definition holds_no_mapping (value : pyval) : bool :=
  match value with
  | PDict _ => false
  | PList elems => forallb (fun item => negb (is_dict item)) elems
  | _ => true
  end.

(** The outcome of looking [key] up among the items of one mapping. *)
Definition lookup_outcome (items : list (string * pyval)) (key : string) : bool * pyval :=
  match dict_get items key with
  | Some value => (true, value)
  | None => (false, PNone)
  end.

(** A line that [json_loads] decodes to a record the schema projects to
    [row]. *)
Definition line_gives_row (json_loads : string -> option pyval) (self : EMBERJsonlToCSV)
    (line : string) (row : list pyval) : Prop :=
  exists json_data,
    json_loads line = Some json_data /\ emitted_row self json_data = Some row.

(** A [float] NaN. *)
Definition is_nan (v : pyval) : bool :=
  match v with
  | PFloat S754_nan => true
  | _ => false
  end.


(** * Properties *)

(** ** Structural induction on values *)

Lemma pyval_induction (P : pyval -> Prop) :
  (forall v, is_complex v = false -> P v) ->
  (forall elems, Forall P elems -> P (PList elems)) ->
  (forall items, Forall (fun kv => P (snd kv)) items -> P (PDict items)) ->
  forall v, P v.
Proof.
  intros Hatom Hlist Hdict.
  fix IH 1.
  intros [ | b | z | f | s | elems | items]; try (apply Hatom; reflexivity).
  - apply Hlist. revert elems.
    fix IHelems 1.
    intros [ | item elems]; constructor; [apply IH | apply IHelems].
  - apply Hdict. revert items.
    fix IHitems 1.
    intros [ | [key value] items]; constructor; [apply IH | apply IHitems].
Qed.

(** ** The generic search *)

Lemma search_dict_unfold items feature :
  _search_and_get (PDict items) feature = search_items feature items.
Proof. reflexivity. Qed.

Lemma preorder_dict_unfold items : preorder (PDict items) = preorder_items items.
Proof.
  induction items as [ | [key value] items IH]; [reflexivity | ].
  change (preorder (PDict ((key, value) :: items)))
    with (((key, value) :: below value) ++ preorder (PDict items))%list.
  rewrite IH. reflexivity.
Qed.

Lemma first_match_app feature (w1 w2 : list (string * pyval)) :
  first_match feature (w1 ++ w2) =
  match first_match feature w1 with
  | Some kv => Some kv
  | None => first_match feature w2
  end.
Proof.
  unfold first_match.
  induction w1 as [ | kv w1 IH]; simpl; [reflexivity | ].
  destruct (String.eqb (fst kv) feature); [reflexivity | exact IH].
Qed.

Lemma search_items_cons feature key value items :
  search_items feature ((key, value) :: items) =
  if String.eqb key feature then Ret (true, value)
  else
    match search_below feature value with
    | Ret (true, temp_value) => Ret (true, temp_value)
    | Ret (false, _) => search_items feature items
    | Raise e => Raise e
    end.
Proof. destruct value; reflexivity. Qed.

Lemma search_elems_cons feature item elems :
  search_elems feature (item :: elems) =
  match item with
  | PDict _ =>
      match _search_and_get item feature with
      | Ret (true, temp_value) => Ret (true, temp_value)
      | Ret (false, _) => search_elems feature elems
      | Raise e => Raise e
      end
  | _ => search_elems feature elems
  end.
Proof. reflexivity. Qed.

Lemma outcome_of_status m : fst (outcome_of m) = bool_decide (is_Some m).
Proof. destruct m as [[key value] | ]; reflexivity. Qed.

(** The search refines the walk: below every value it returns the outcome
    of the first matching entry of the pre-order walk. *)
Lemma search_refines_walk (v : pyval) :
  forall feature,
    search_below feature v = Ret (outcome_of (first_match feature (below v))).
Proof.
  induction v as [v Hv | elems IH | items IH] using pyval_induction; intros feature.
  - destruct v; try reflexivity; discriminate Hv.
  - cbn [search_below below].
    induction IH as [ | item elems Hitem _ IHelems]; [reflexivity | ].
    rewrite search_elems_cons. cbn [preorder_elems]. fold preorder_elems.
    rewrite first_match_app.
    destruct item as [ | b | z | f | s | sub | sub]; try exact IHelems.
    specialize (Hitem feature). cbn [search_below below] in Hitem.
    rewrite Hitem.
    destruct (first_match feature (preorder (PDict sub))) as [[k x] | ];
      [reflexivity | exact IHelems].
  - cbn [search_below below].
    rewrite search_dict_unfold, preorder_dict_unfold.
    induction IH as [ | [key value] items Hvalue _ IHitems]; [reflexivity | ].
    rewrite search_items_cons. cbn [preorder_items]. fold preorder_items.
    change (first_match feature ((key, value) :: below value ++ preorder_items items))
      with (if String.eqb key feature then Some (key, value)
            else first_match feature (below value ++ preorder_items items)).
    destruct (String.eqb key feature); [reflexivity | ].
    rewrite first_match_app.
    cbn [snd] in Hvalue. rewrite (Hvalue feature).
    destruct (first_match feature (below value)) as [[k x] | ];
      [reflexivity | exact IHitems].
Qed.

(** The search of a mapping has an outcome of the form [(status, value)]
    (the embedding has no recursion limit). *)
Lemma search_dict_returns items feature :
  exists status value, _search_and_get (PDict items) feature = Ret (status, value).
Proof.
  pose proof (search_refines_walk (PDict items) feature) as H.
  cbn [search_below] in H. rewrite H.
  destruct (outcome_of _) as [status value]. eauto.
Qed.

(** C5. For every record tree (a mapping at the root) and every feature
    name, [_search_and_get] returns the value of the first entry, in the
    depth-first pre-order walk of the tree, whose key is the feature name:
    a key is compared before its value is entered, mapping values are
    entered, and in a sequence value the mapping-typed elements are
    entered in order.  So of two entries carrying the key, the one met
    earlier in the walk wins, whatever follows it, and the search answers
    [(False, None)] exactly when no entry of the whole walk carries the
    key. *)
Theorem search_is_first_preorder_match (items : list (string * pyval)) (feature : string) :
  _search_and_get (PDict items) feature =
    Ret (outcome_of (first_match feature (preorder (PDict items))))
  /\ (forall before key value after,
        preorder (PDict items) = (before ++ (key, value) :: after)%list ->
        key = feature ->
        Forall (fun kv => fst kv <> feature) before ->
        _search_and_get (PDict items) feature = Ret (true, value))
  /\ (_search_and_get (PDict items) feature = Ret (false, PNone) <->
      Forall (fun kv => fst kv <> feature) (preorder (PDict items))).
Proof.
  pose proof (search_refines_walk (PDict items) feature) as Heq.
  cbn [search_below below] in Heq.
  split; [exact Heq | split].
  - intros before key value after Hwalk Hkey Hbefore.
    rewrite Heq, Hwalk, first_match_app.
    assert (Hnone : first_match feature before = None).
    { unfold first_match. clear Hwalk.
      induction Hbefore as [ | kv before Hkv _ IH]; [reflexivity | ].
      simpl. apply String.eqb_neq in Hkv. rewrite Hkv. exact IH. }
    rewrite Hnone. unfold first_match. simpl.
    apply String.eqb_eq in Hkey. rewrite Hkey. reflexivity.
  - rewrite Heq. generalize (preorder (PDict items)) as walk.
    intros walk. unfold first_match. split.
    + intros Hnot. induction walk as [ | kv walk IH]; constructor.
      * simpl in Hnot. destruct (String.eqb (fst kv) feature) eqn:E.
        -- destruct kv; discriminate Hnot.
        -- apply String.eqb_neq. exact E.
      * apply IH. simpl in Hnot.
        destruct (String.eqb (fst kv) feature); [destruct kv; discriminate Hnot | exact Hnot].
    + intros Hall. induction Hall as [ | kv walk Hkv _ IH]; [reflexivity | ].
      simpl. apply String.eqb_neq in Hkv. rewrite Hkv. exact IH.
Qed.

(** ** Data-directory extractors *)

(** Reading field [key] of entry [i] of a resolved table. *)
Lemma table_entry_field (dds : list pyval) (i : nat) (entry : list (string * pyval))
    (key : string) (value : pyval) :
  nth_error dds i = Some (PDict entry) ->
  dict_get entry key = Some value ->
  (n ← py_len (PList dds);
   if Nat.eqb n 0 then Ret (true, PFloat f_zero)
   else e ← py_index (PList dds) i; x ← py_field e key; Ret (true, x))
  = Ret (true, value).
Proof.
  intros Hentry Hfield.
  destruct dds as [ | d dds]; [destruct i; discriminate Hentry | ].
  cbn [py_len length mbind result_bind Nat.eqb py_index].
  rewrite Hentry. cbn [mbind result_bind py_field]. rewrite Hfield. reflexivity.
Qed.

(** What the extractors return on a record whose data-directory table
    resolves to a sequence with mapping entries at the positions read:
    [export_size] and [resource_size] return the ["size"] of entries 0 and
    2, [debug_rva] and [iat_rva] the ["virtual_address"] of entries 6 and
    12 -- and [debug_size], bound to the second definition of
    [_get_debug_size], returns the ["virtual_address"] of entry 6 as
    well. *)
Lemma datadirectory_extractors_on_table (json_data : pyval) (dds : list pyval)
    (e0 e2 e6 e12 : list (string * pyval)) (size0 size2 va6 va12 : pyval) :
  _search_and_get json_data "datadirectories" = Ret (true, PList dds) ->
  nth_error dds 0 = Some (PDict e0) -> dict_get e0 "size" = Some size0 ->
  nth_error dds 2 = Some (PDict e2) -> dict_get e2 "size" = Some size2 ->
  nth_error dds 6 = Some (PDict e6) -> dict_get e6 "virtual_address" = Some va6 ->
  nth_error dds 12 = Some (PDict e12) -> dict_get e12 "virtual_address" = Some va12 ->
  extract json_data "export_size" = Ret (true, size0)
  /\ extract json_data "resource_size" = Ret (true, size2)
  /\ extract json_data "debug_rva" = Ret (true, va6)
  /\ extract json_data "iat_rva" = Ret (true, va12)
  /\ extract json_data "debug_size" = Ret (true, va6).
Proof.
  intros Hsearch H0 S0 H2 S2 H6 V6 H12 V12.
  repeat split; cbn [extract String.eqb Ascii.eqb Bool.eqb];
    unfold _get_export_size, _get_resource_size, _get_debug_rva, _get_iat_rva,
      _get_debug_size;
    rewrite Hsearch; cbn [mbind result_bind negb];
    eapply table_entry_field; eassumption.
Qed.

(** C1. On the sample record, whose ["datadirectories"] is a sequence of
    13 mappings with ["size"] and ["virtual_address"], the extractors for
    [export_size], [resource_size], [debug_rva] and [iat_rva] return entry
    0's size, entry 2's size, entry 6's virtual address and entry 12's
    virtual address, but the extractor for [debug_size] returns entry 6's
    ["virtual_address"] (106), not its ["size"] (16): the class body
    defines [_get_debug_size] a second time with the body of
    [_get_debug_rva], and the first definition, which reads ["size"], is
    never called. *)
Theorem debug_size_returns_virtual_address :
  _search_and_get sample_directories "datadirectories"
    = Ret (true, PList (map directory_entry (seq 0 13)))
  /\ extract sample_directories "export_size" = Ret (true, PInt 10)
  /\ extract sample_directories "resource_size" = Ret (true, PInt 12)
  /\ extract sample_directories "debug_rva" = Ret (true, PInt 106)
  /\ extract sample_directories "iat_rva" = Ret (true, PInt 112)
  /\ (e ← py_index (PList (map directory_entry (seq 0 13))) 6; py_field e "size")
       = Ret (PInt 16)
  /\ extract sample_directories "debug_size" = Ret (true, PInt 106)
  /\ _get_debug_size_shadowed sample_directories = Ret (true, PInt 16).
Proof. repeat split; vm_compute; reflexivity. Qed.

(** The first item named [key] is the one [d[key]] reads. *)
Lemma dict_get_first (before : list (string * pyval)) (key : string) (value : pyval)
    (after : list (string * pyval)) :
  Forall (fun kv => fst kv <> key) before ->
  dict_get (before ++ (key, value) :: after) key = Some value.
Proof.
  induction 1 as [ | [k x] before Hk _ IH]; cbn [app dict_get].
  - rewrite String.eqb_refl. reflexivity.
  - cbn [fst] in Hk. apply String.eqb_neq in Hk. rewrite Hk. exact IH.
Qed.

(** C10. For every record, the extractor for [export_rva] has exactly the
    outcome of the extractor for [export_size] -- the same exception, the
    same status and the same value -- and what both read is the ["size"]
    field of entry 0 of the data-directory table: on every record whose
    table is a sequence that starts with a mapping holding ["size"], both
    return that entry's ["size"], whatever its ["virtual_address"] and
    whatever the other entries hold. *)
Theorem export_rva_same_as_export_size (json_data : pyval) :
  (extract json_data "export_rva" = extract json_data "export_size"
   /\ _get_export_rva json_data = _get_export_size json_data)
  /\ (forall (before : list (string * pyval)) (size : pyval)
             (after : list (string * pyval)) (others : list pyval),
        _search_and_get json_data "datadirectories"
        = Ret (true, PList (PDict (before ++ ("size", size) :: after) :: others)) ->
        Forall (fun kv => fst kv <> "size") before ->
        extract json_data "export_rva" = Ret (true, size)
        /\ extract json_data "export_size" = Ret (true, size)).
Proof.
  split; [split; reflexivity | ].
  intros before size after others Hsearch Hbefore.
  pose proof (dict_get_first before "size" size after Hbefore) as Hsize.
  split; cbn [extract String.eqb Ascii.eqb Bool.eqb];
    unfold _get_export_rva, _get_export_size;
    rewrite Hsearch; cbn [mbind result_bind negb];
    exact (table_entry_field (PDict (before ++ ("size", size) :: after) :: others) 0
             (before ++ ("size", size) :: after) "size" size eq_refl Hsize).
Qed.

Lemma export_rva_same_as_export_size_witness :
  extract sample_directories "export_rva" = Ret (true, PInt 10)
  /\ extract sample_directories "export_size" = Ret (true, PInt 10).
Proof.
  apply (proj2 (export_rva_same_as_export_size sample_directories)
           [] (PInt 10) [("virtual_address", PInt 100)]
           (map directory_entry (seq 1 12))).
  - reflexivity.
  - constructor.
Defined.

(** Both return the ["size"] of entry 0 when the table has one. *)
Lemma export_rva_reads_size (json_data : pyval) (dds : list pyval)
    (e0 : list (string * pyval)) (size0 : pyval) :
  _search_and_get json_data "datadirectories" = Ret (true, PList dds) ->
  nth_error dds 0 = Some (PDict e0) ->
  dict_get e0 "size" = Some size0 ->
  _get_export_rva json_data = Ret (true, size0).
Proof.
  intros Hsearch H0 S0. unfold _get_export_rva.
  rewrite Hsearch. cbn [mbind result_bind negb].
  eapply table_entry_field; eassumption.
Qed.

(** ** Section aggregates on an empty section list *)

Lemma sections_mean_empty (feature : string) (json_data : pyval) :
  _search_and_get json_data "sections" = Ret (true, PList []) ->
  sections_mean feature json_data = Ret (true, PFloat f_zero).
Proof. intros Hsearch. unfold sections_mean. rewrite Hsearch. reflexivity. Qed.

Lemma sections_min_empty (feature : string) (json_data : pyval) :
  _search_and_get json_data "sections" = Ret (true, PList []) ->
  sections_min feature json_data = Ret (true, PFloat f_zero).
Proof. intros Hsearch. unfold sections_min. rewrite Hsearch. reflexivity. Qed.

Lemma sections_max_empty (feature : string) (json_data : pyval) :
  _search_and_get json_data "sections" = Ret (true, PList []) ->
  sections_max feature json_data = Ret (true, PFloat f_zero).
Proof. intros Hsearch. unfold sections_max. rewrite Hsearch. reflexivity. Qed.

(** C7. For every record in which ["sections"] resolves to an empty
    sequence, each of the nine [sections_*] aggregate extractors returns
    status [True] with the value [0.0]. *)
Theorem empty_sections_aggregate_to_zero (json_data : pyval) :
  _search_and_get json_data "sections" = Ret (true, PList []) ->
  Forall (fun feature => extract json_data feature = Ret (true, PFloat f_zero))
    ["sections_mean_entropy"; "sections_min_entropy"; "sections_max_entropy";
     "sections_mean_rawsize"; "sections_min_rawsize"; "sections_max_rawsize";
     "sections_mean_virtualsize"; "sections_min_virtualsize";
     "sections_max_virtualsize"]
  /\ _get_sections_mean_entropy json_data = Ret (true, PFloat f_zero)
  /\ _get_sections_min_entropy json_data = Ret (true, PFloat f_zero)
  /\ _get_sections_max_entropy json_data = Ret (true, PFloat f_zero)
  /\ _get_sections_mean_raw_size json_data = Ret (true, PFloat f_zero)
  /\ _get_sections_min_raw_size json_data = Ret (true, PFloat f_zero)
  /\ _get_sections_max_raw_size json_data = Ret (true, PFloat f_zero)
  /\ _get_sections_mean_virtual_size json_data = Ret (true, PFloat f_zero)
  /\ _get_sections_min_virtual_size json_data = Ret (true, PFloat f_zero)
  /\ _get_sections_max_virtual_size json_data = Ret (true, PFloat f_zero).
Proof.
  intros Hsearch.
  split;
    [ repeat constructor; cbn [extract String.eqb Ascii.eqb Bool.eqb]
    | repeat split ];
    first [ apply sections_mean_empty | apply sections_min_empty
          | apply sections_max_empty ];
    exact Hsearch.
Qed.

Lemma empty_sections_aggregate_to_zero_witness :
  _search_and_get (PDict [("sections", PList [])]) "sections" = Ret (true, PList [])
  /\ _get_sections_max_virtual_size (PDict [("sections", PList [])])
     = Ret (true, PFloat f_zero).
Proof.
  split; [reflexivity | ].
  apply (empty_sections_aggregate_to_zero (PDict [("sections", PList [])])).
  reflexivity.
Defined.

(** ** The schema built at construction *)

Lemma occurrences_app x (l1 l2 : list string) :
  occurrences x (l1 ++ l2) = occurrences x l1 + occurrences x l2.
Proof. induction l1 as [ | y l1 IH]; simpl; [reflexivity | rewrite IH; lia]. Qed.

Lemma existsb_occurrences x (features : list string) :
  existsb (fun y => String.eqb y x) features = negb (Nat.eqb (occurrences x features) 0).
Proof.
  induction features as [ | y rest IH]; simpl; [reflexivity | ].
  destruct (String.eqb y x); simpl; [reflexivity | exact IH].
Qed.

Lemma occurrences_list_remove x (features : list string) :
  occurrences x (list_remove x features) = pred (occurrences x features).
Proof.
  induction features as [ | y rest IH]; simpl; [reflexivity | ].
  destruct (String.eqb y x) eqn:E; simpl; [reflexivity | ].
  rewrite E. exact IH.
Qed.

(** Whatever the caller passes, the schema ends with ["label"], and
    construction takes away one occurrence (the first) and appends one. *)
Lemma init_label_last_and_count (features : list string) :
  last (_features (__init__ features)) = Some target
  /\ occurrences target (_features (__init__ features))
     = Nat.max 1 (occurrences target features).
Proof.
  unfold __init__. cbn [_features]. split; [apply last_snoc | ].
  rewrite occurrences_app, existsb_occurrences. simpl.
  destruct (occurrences target features) as [ | k] eqn:E; simpl.
  - rewrite E. reflexivity.
  - rewrite occurrences_list_remove, E. simpl. lia.
Qed.

(** C3, as stated, fails: with ["label"] listed twice, [features.remove]
    takes out the first occurrence only, and the schema built from
    [["label"; "md5"; "label"]] is [["md5"; "label"; "label"]], which holds
    ["label"] twice. *)
Lemma label_listed_twice_stays_twice :
  _features (__init__ ["label"; "md5"; "label"]) = ["md5"; "label"; "label"]
  /\ ~ (forall features : list string,
         In "label" features ->
         occurrences "label" (_features (__init__ features)) = 1
         /\ last (_features (__init__ features)) = Some "label").
Proof.
  split; [reflexivity | ].
  intros Hclaim.
  destruct (Hclaim ["label"; "md5"; "label"]) as [Hcount _]; [left; reflexivity | ].
  vm_compute in Hcount. discriminate Hcount.
Qed.

(** C3, amended. For every caller-supplied feature list in which
    ["label"] appears exactly once, the schema built at construction
    contains ["label"] exactly once, as its last entry, and the other
    names keep their order. *)
Theorem label_once_and_last (features : list string) :
  occurrences "label" features = 1 ->
  occurrences "label" (_features (__init__ features)) = 1
  /\ last (_features (__init__ features)) = Some "label"
  /\ _features (__init__ features) = (list_remove "label" features ++ ["label"])%list.
Proof.
  intros Honce.
  destruct (init_label_last_and_count features) as [Hlast Hcount].
  fold target in Honce. rewrite Honce in Hcount.
  repeat split; [exact Hcount | exact Hlast | ].
  unfold __init__. rewrite existsb_occurrences. fold target. rewrite Honce. reflexivity.
Qed.

Lemma label_once_and_last_witness :
  occurrences "label" ["md5"; "label"; "machine"] = 1
  /\ _features (__init__ ["md5"; "label"; "machine"]) = ["md5"; "machine"; "label"].
Proof.
  split; [reflexivity | ].
  destruct (label_once_and_last ["md5"; "label"; "machine"]) as (_ & _ & Hschema);
    [reflexivity | exact Hschema].
Defined.

(** ** Projecting a record *)

(** The loop passes over features that resolve to scalars. *)
Lemma for_features_pass (before rest : list string) (json_data : pyval) :
  Forall (resolves_scalar json_data) before ->
  forall data, exists data',
    for_features (before ++ rest) json_data data = for_features rest json_data data'.
Proof.
  induction 1 as [ | g before (x & Hx & Hscalar) _ IH]; intros data; [eauto | ].
  cbn [app for_features]. rewrite Hx, Hscalar. cbn [negb]. apply IH.
Qed.

(** A row is assembled only if every feature resolved to a scalar. *)
Lemma for_features_row (features : list string) (json_data : pyval) :
  forall data row,
    for_features features json_data data = RowOk row ->
    Forall (resolves_scalar json_data) features.
Proof.
  induction features as [ | g rest IH]; intros data row Hrow; [constructor | ].
  cbn [for_features] in Hrow.
  destruct (extract json_data g) as [[status x] | e] eqn:Hx; [ | discriminate Hrow].
  destruct status; cbn [negb] in Hrow; [ | discriminate Hrow].
  destruct (is_complex x) eqn:Hscalar; [discriminate Hrow | ].
  constructor; [exists x; split; [exact Hx | exact Hscalar] | eapply IH; exact Hrow].
Qed.

(** The schema built from [["sections_mean_entropy"]]. *)
Lemma lone_mean_entropy_schema :
  _features (__init__ ["sections_mean_entropy"]) = ["sections_mean_entropy"; "label"].
Proof. reflexivity. Qed.

(** C2, as stated, fails: construction appends ["label"] to every schema,
    so the schema built from [["sections_mean_entropy"]] has two columns.
    On the record [{"sections": []}] the projection stops at ["label"],
    which is not found, and no row is written; no record at all yields
    the one-cell row [[0.0]]. *)
Lemma lone_mean_entropy_row_is_not_emitted :
  _search_and_get (PDict [("sections", PList [])]) "sections" = Ret (true, PList [])
  /\ project (__init__ ["sections_mean_entropy"]) (PDict [("sections", PList [])])
     = NotExtracted "label"
  /\ emitted_row (__init__ ["sections_mean_entropy"]) (PDict [("sections", PList [])])
     = None
  /\ ~ (forall json_data : pyval,
         _search_and_get json_data "sections" = Ret (true, PList []) ->
         emitted_row (__init__ ["sections_mean_entropy"]) json_data
         = Some [PFloat f_zero]).
Proof.
  assert (Hrow : emitted_row (__init__ ["sections_mean_entropy"])
                   (PDict [("sections", PList [])]) = None) by reflexivity.
  repeat split; try reflexivity.
  intros Hclaim.
  specialize (Hclaim (PDict [("sections", PList [])]) eq_refl).
  rewrite Hrow in Hclaim. discriminate Hclaim.
Qed.

(** C2, amended. For the schema [["sections_mean_entropy"]] -- to which
    construction appends ["label"] -- and any record whose ["sections"]
    resolves to an empty sequence and whose ["label"] resolves to a
    scalar, the projection succeeds and emits exactly the row
    [[0.0, label]]. *)
Theorem lone_mean_entropy_row_with_label (json_data label : pyval) :
  _search_and_get json_data "sections" = Ret (true, PList []) ->
  _search_and_get json_data "label" = Ret (true, label) ->
  is_complex label = false ->
  emitted_row (__init__ ["sections_mean_entropy"]) json_data
  = Some [PFloat f_zero; label].
Proof.
  intros Hsections Hlabel Hscalar.
  unfold emitted_row, project. rewrite lone_mean_entropy_schema.
  cbn [for_features extract String.eqb Ascii.eqb Bool.eqb].
  unfold _get_sections_mean_entropy.
  rewrite (sections_mean_empty _ _ Hsections).
  cbn [negb is_complex]. rewrite Hlabel. cbn [negb]. rewrite Hscalar.
  unfold row_cells. cbn [map].
  rewrite lookup_insert_ne by discriminate.
  rewrite !lookup_insert_eq. reflexivity.
Qed.

Lemma lone_mean_entropy_row_with_label_witness :
  emitted_row (__init__ ["sections_mean_entropy"])
    (PDict [("sections", PList []); ("label", PInt 1)])
  = Some [PFloat f_zero; PInt 1].
Proof.
  apply (lone_mean_entropy_row_with_label
           (PDict [("sections", PList []); ("label", PInt 1)]) (PInt 1));
    reflexivity.
Defined.

(** C8, as stated, fails: the feature loop stops at the first feature
    that fails.  With the schema built from [["md5"; "sections"]] and the
    record [{"sections": [{"name": ".text"}]}], the feature ["sections"]
    resolves to a sequence, but the projection has already failed on
    ["md5"], which is not found: it takes the "could not be extracted"
    branch, not the "complex object" one. *)
Lemma earlier_missing_feature_fails_first :
  extract (PDict [("sections", PList [PDict [("name", PStr ".text")]])]) "sections"
    = Ret (true, PList [PDict [("name", PStr ".text")]])
  /\ project (__init__ ["md5"; "sections"])
       (PDict [("sections", PList [PDict [("name", PStr ".text")]])])
     = NotExtracted "md5"
  /\ ~ (forall (self : EMBERJsonlToCSV) (json_data : pyval) (feature : string)
          (value : pyval),
         In feature (_features self) ->
         extract json_data feature = Ret (true, value) ->
         is_complex value = true ->
         exists f, project self json_data = ComplexObject f).
Proof.
  repeat split; try reflexivity.
  intros Hclaim.
  destruct (Hclaim (__init__ ["md5"; "sections"])
              (PDict [("sections", PList [PDict [("name", PStr ".text")]])])
              "sections" (PList [PDict [("name", PStr ".text")]]))
    as [f Hf]; [right; left; reflexivity | reflexivity | reflexivity | ].
  discriminate Hf.
Qed.

(** C8, amended. For every record and every schema feature whose resolved
    value is a nested mapping or a sequence, the projection of the whole
    record fails and no row is emitted for that record; the failure is of
    the non-scalar kind, for that feature, whenever every feature earlier
    in the schema resolves to a scalar. *)
Theorem complex_feature_fails_projection (self : EMBERJsonlToCSV) (json_data : pyval)
    (feature : string) (value : pyval) :
  In feature (_features self) ->
  extract json_data feature = Ret (true, value) ->
  is_complex value = true ->
  emitted_row self json_data = None
  /\ (forall data, project self json_data <> RowOk data)
  /\ (forall before after,
        _features self = (before ++ feature :: after)%list ->
        Forall (resolves_scalar json_data) before ->
        project self json_data = ComplexObject feature).
Proof.
  intros Hin Hvalue Hcomplex.
  assert (Hnorow : forall data, project self json_data <> RowOk data).
  { intros data Hrow. unfold project in Hrow.
    apply for_features_row in Hrow.
    rewrite Forall_forall in Hrow.
    destruct (Hrow feature) as (x & Hx & Hscalar).
    - apply list_elem_of_In. exact Hin.
    - rewrite Hvalue in Hx. injection Hx as <-. congruence. }
  repeat split.
  - unfold emitted_row.
    destruct (project self json_data) as [data | | | ] eqn:E; try reflexivity.
    destruct (Hnorow data eq_refl).
  - exact Hnorow.
  - intros before after Hschema Hbefore. unfold project. rewrite Hschema.
    destruct (for_features_pass before (feature :: after) json_data Hbefore ∅)
      as [data' ->].
    cbn [for_features]. rewrite Hvalue. cbn [negb]. rewrite Hcomplex. reflexivity.
Qed.

Lemma complex_feature_fails_projection_witness :
  project (__init__ ["md5"; "sections"])
    (PDict [("md5", PStr "0abc"); ("sections", PList [PDict [("name", PStr ".text")]])])
  = ComplexObject "sections".
Proof.
  pose (json_data :=
          PDict [("md5", PStr "0abc");
                 ("sections", PList [PDict [("name", PStr ".text")]])]).
  destruct (complex_feature_fails_projection (__init__ ["md5"; "sections"]) json_data
              "sections" (PList [PDict [("name", PStr ".text")]]))
    as (_ & _ & Hkind);
    [right; left; reflexivity | reflexivity | reflexivity | ].
  apply (Hkind ["md5"] ["label"]); [reflexivity | ].
  constructor; [ | constructor].
  exists (PStr "0abc"). split; reflexivity.
Defined.

(** ** The order on numbers *)

Lemma Qltb_lt (p q : Q) : Qltb p q = true <-> (p < q)%Q.
Proof.
  unfold Qltb. rewrite Qlt_alt.
  destruct (p ?= q)%Q; split; intros H; first [reflexivity | discriminate H].
Qed.

Lemma Qltb_ge (p q : Q) : Qltb p q = false <-> (q <= p)%Q.
Proof.
  split; intros H.
  - apply Qnot_lt_le. intros Hlt. apply Qltb_lt in Hlt. congruence.
  - destruct (Qltb p q) eqn:E; [ | reflexivity].
    apply Qltb_lt in E. exfalso. exact (Qle_not_lt _ _ H E).
Qed.

Lemma xlt_irrefl (a : xval) : xlt a a = false.
Proof.
  destruct a as [ | | q | ]; try reflexivity.
  cbn [xlt]. apply Qltb_ge. apply Qle_refl.
Qed.

Lemma xlt_trans (a b c : xval) :
  xlt a b = true -> xlt b c = true -> xlt a c = true.
Proof.
  destruct a as [ | | p | ], b as [ | | q | ], c as [ | | r | ];
    cbn [xlt]; try congruence.
  rewrite !Qltb_lt. apply Qlt_trans.
Qed.

(** Away from NaN the order is total: [a >= b] and [b >= c] give
    [a >= c]. *)
Lemma xlt_negative_trans (a b c : xval) :
  b <> XNaN -> xlt a b = false -> xlt b c = false -> xlt a c = false.
Proof.
  destruct a as [ | | p | ], b as [ | | q | ], c as [ | | r | ];
    cbn [xlt]; try congruence.
  rewrite !Qltb_ge. intros _ H1 H2. exact (Qle_trans _ _ _ H2 H1).
Qed.

Lemma number_value (v : pyval) : is_number v = true -> value_of v <> XNaN.
Proof.
  destruct v as [ | b | z | f | s | elems | items]; try discriminate.
  unfold value_of. cbn [as_num num_value float_value].
  destruct f as [sg | [ | ] | | sg m e]; discriminate.
Qed.

Lemma number_lt (a b : pyval) :
  is_number a = true -> is_number b = true ->
  py_lt a b = Ret (xlt (value_of a) (value_of b)).
Proof.
  destruct a as [ | ? | ? | fa | ? | ? | ?]; try discriminate;
    destruct b as [ | ? | ? | fb | ? | ? | ?]; try discriminate; reflexivity.
Qed.

(** A number that is not below [float('inf')] is [float('inf')]. *)
Lemma number_not_below_inf (v : pyval) :
  is_number v = true -> xlt (value_of v) XPosInf = false -> v = PFloat f_inf.
Proof.
  destruct v as [ | b | z | f | s | elems | items]; try discriminate.
  destruct f as [sg | [ | ] | | sg m e]; try discriminate; reflexivity.
Qed.

Lemma number_not_above_neg_inf (v : pyval) :
  is_number v = true -> xlt XNegInf (value_of v) = false -> v = PFloat f_neg_inf.
Proof.
  destruct v as [ | b | z | f | s | elems | items]; try discriminate.
  destruct f as [sg | [ | ] | | sg m e]; try discriminate; reflexivity.
Qed.

(** ** Aggregates over the section values *)

(** When every section yields its field, the section loop is the fold of
    its step over the values found. *)
Lemma for_sections_fold (step : pyval -> pyval -> result pyval) (feature : string)
    (sections values : list pyval) :
  Forall2 (fun section x => _search_and_get section feature = Ret (true, x))
    sections values ->
  forall acc,
    for_sections step feature sections acc
    = (r ← fold_step step values acc; Ret (Some r)).
Proof.
  induction 1 as [ | section x sections values Hx _ IH]; intros acc; [reflexivity | ].
  cbn [for_sections fold_step]. rewrite Hx. cbn [mbind result_bind].
  destruct (step acc x) as [acc' | e]; [apply IH | reflexivity].
Qed.

Section RunningExtremum.

(** [better a b]: [a] replaces [b] as the running extremum. *)
Variable better : xval -> xval -> bool.
Variable step : pyval -> pyval -> result pyval.

Hypothesis better_irrefl : forall a, better a a = false.
Hypothesis better_trans :
  forall a b c, better a b = true -> better b c = true -> better a c = true.
Hypothesis better_negative_trans :
  forall a b c, b <> XNaN -> better a b = false -> better b c = false ->
                better a c = false.
Hypothesis step_picks :
  forall acc x, is_number acc = true -> is_number x = true ->
    step acc x = Ret (if better (value_of x) (value_of acc) then x else acc).

(** The fold of a running extremum ends on the start value or on one of
    the values, and nothing it has seen is better than where it ends. *)
Lemma running_extremum (values : list pyval) :
  Forall (fun x => is_number x = true) values ->
  forall acc, is_number acc = true ->
  exists m,
    fold_step step values acc = Ret m
    /\ (m = acc \/ In m values)
    /\ is_number m = true
    /\ better (value_of acc) (value_of m) = false
    /\ Forall (fun x => better (value_of x) (value_of m) = false) values.
Proof.
  induction 1 as [ | x values Hx _ IH]; intros acc Hacc.
  - exists acc. cbn [fold_step]. repeat split; auto.
  - cbn [fold_step]. rewrite (step_picks acc x Hacc Hx). cbn [mbind result_bind].
    destruct (better (value_of x) (value_of acc)) eqn:Hbetter.
    + destruct (IH x Hx) as (m & Hfold & Hm & Hnum & Hxm & Hrest).
      exists m. repeat split; auto.
      * destruct Hm as [-> | Hm]; right; [left; reflexivity | right; exact Hm].
      * destruct (better (value_of acc) (value_of m)) eqn:E; [ | reflexivity].
        rewrite (better_trans _ _ _ Hbetter E) in Hxm. discriminate Hxm.
    + destruct (IH acc Hacc) as (m & Hfold & Hm & Hnum & Haccm & Hrest).
      exists m. repeat split; auto.
      * destruct Hm as [-> | Hm]; [left; reflexivity | right; right; exact Hm].
      * constructor; [ | exact Hrest].
        apply (better_negative_trans _ (value_of acc)); auto.
        apply number_value. exact Hacc.
Qed.

End RunningExtremum.

Lemma py_min_picks (acc x : pyval) :
  is_number acc = true -> is_number x = true ->
  py_min acc x = Ret (if xlt (value_of x) (value_of acc) then x else acc).
Proof.
  intros Hacc Hx. unfold py_min. rewrite (number_lt x acc Hx Hacc). reflexivity.
Qed.

Lemma py_max_picks (acc x : pyval) :
  is_number acc = true -> is_number x = true ->
  py_max acc x = Ret (if xlt (value_of acc) (value_of x) then x else acc).
Proof.
  intros Hacc Hx. unfold py_max, py_gt. rewrite (number_lt acc x Hacc Hx). reflexivity.
Qed.

(** The running minimum from [float('inf')] over a non-empty list of
    numbers is a minimum of the list. *)
Lemma running_min_is_minimum (values : list pyval) :
  values <> [] ->
  Forall (fun x => is_number x = true) values ->
  exists m, fold_step py_min values (PFloat f_inf) = Ret m /\ is_minimum m values.
Proof.
  intros Hne Hnums.
  destruct (running_extremum xlt py_min xlt_irrefl xlt_trans xlt_negative_trans
              py_min_picks values Hnums (PFloat f_inf) eq_refl)
    as (m & Hfold & Hm & Hnum & _ & Hall).
  exists m. split; [exact Hfold | ].
  assert (Hlt : Forall (fun x => py_lt x m = Ret false) values).
  { rewrite Forall_forall in *. intros x Hx.
    rewrite (number_lt x m (Hnums x Hx) Hnum), (Hall x Hx). reflexivity. }
  split; [ | exact Hlt].
  destruct Hm as [-> | Hm]; [ | exact Hm].
  destruct values as [ | x rest]; [congruence | ].
  apply Forall_cons_iff in Hnums as [Hx _]. apply Forall_cons_iff in Hall as [Hxm _].
  left. apply number_not_below_inf; assumption.
Qed.

(** The running maximum from [float('-inf')] over a non-empty list of
    numbers is a maximum of the list. *)
Lemma running_max_is_maximum (values : list pyval) :
  values <> [] ->
  Forall (fun x => is_number x = true) values ->
  exists m, fold_step py_max values (PFloat f_neg_inf) = Ret m /\ is_maximum m values.
Proof.
  intros Hne Hnums.
  destruct (running_extremum (fun a b => xlt b a) py_max
              xlt_irrefl
              (fun a b c H1 H2 => xlt_trans c b a H2 H1)
              (fun a b c Hb H1 H2 => xlt_negative_trans c b a Hb H2 H1)
              py_max_picks values Hnums (PFloat f_neg_inf) eq_refl)
    as (m & Hfold & Hm & Hnum & _ & Hall).
  exists m. split; [exact Hfold | ].
  assert (Hlt : Forall (fun x => py_lt m x = Ret false) values).
  { rewrite Forall_forall in *. intros x Hx.
    rewrite (number_lt m x Hnum (Hnums x Hx)), (Hall x Hx). reflexivity. }
  split; [ | exact Hlt].
  destruct Hm as [-> | Hm]; [ | exact Hm].
  destruct values as [ | x rest]; [congruence | ].
  apply Forall_cons_iff in Hnums as [Hx _]. apply Forall_cons_iff in Hall as [Hxm _].
  left. apply number_not_above_neg_inf; assumption.
Qed.

Lemma sections_loop_inputs (feature : string) (sections values : list pyval) :
  Forall2 (fun section x =>
             _search_and_get section feature = Ret (true, x) /\ is_number x = true)
    sections values ->
  Forall2 (fun section x => _search_and_get section feature = Ret (true, x))
    sections values
  /\ Forall (fun x => is_number x = true) values
  /\ length sections = length values.
Proof.
  induction 1 as [ | section x sections values [Hx Hnum] _ (IH1 & IH2 & IH3)].
  - repeat split; constructor.
  - repeat split; [constructor; assumption | constructor; assumption | ].
    cbn [length]. rewrite IH3. reflexivity.
Qed.

(** The three aggregate shapes on a non-empty section list whose entries
    all yield a number for [feature]. *)
Lemma sections_aggregates (feature : string) (json_data : pyval)
    (sections values : list pyval) :
  _search_and_get json_data "sections" = Ret (true, PList sections) ->
  sections <> [] ->
  Forall2 (fun section x =>
             _search_and_get section feature = Ret (true, x) /\ is_number x = true)
    sections values ->
  sections_mean feature json_data = (mean ← arithmetic_mean values; Ret (true, mean))
  /\ (exists lowest,
        sections_min feature json_data = Ret (true, lowest) /\ is_minimum lowest values)
  /\ (exists highest,
        sections_max feature json_data = Ret (true, highest)
        /\ is_maximum highest values).
Proof.
  intros Hsearch Hne Hsections.
  destruct (sections_loop_inputs _ _ _ Hsections) as (Hfound & Hnums & Hlen).
  assert (Hvalues : values <> []).
  { intros ->. destruct sections; [congruence | discriminate Hlen]. }
  assert (Hcount : Nat.eqb (length sections) 0 = false).
  { destruct sections; [congruence | reflexivity]. }
  repeat split.
  - unfold sections_mean. rewrite Hsearch.
    cbn [mbind result_bind negb py_len py_iter]. rewrite Hcount.
    rewrite (for_sections_fold _ _ _ _ Hfound).
    unfold arithmetic_mean, py_sum. rewrite Hlen.
    destruct (fold_step py_add values (PInt 0)) as [total | e]; [ | reflexivity].
    reflexivity.
  - destruct (running_min_is_minimum values Hvalues Hnums) as (m & Hfold & Hmin).
    exists m. split; [ | exact Hmin].
    unfold sections_min. rewrite Hsearch.
    cbn [mbind result_bind negb py_len py_iter]. rewrite Hcount.
    rewrite (for_sections_fold _ _ _ _ Hfound), Hfold. reflexivity.
  - destruct (running_max_is_maximum values Hvalues Hnums) as (m & Hfold & Hmax).
    exists m. split; [ | exact Hmax].
    unfold sections_max. rewrite Hsearch.
    cbn [mbind result_bind negb py_len py_iter]. rewrite Hcount.
    rewrite (for_sections_fold _ _ _ _ Hfound), Hfold. reflexivity.
Qed.

(** *** The mean of float entries always returns *)

Lemma digits2_pos_lower (p : positive) : (2 ^ (Zpos (digits2_pos p) - 1) <= Zpos p)%Z.
Proof.
  induction p as [p IH | p IH | ]; cbn [digits2_pos]; [ | | reflexivity];
    rewrite Pos2Z.inj_succ;
    replace (Z.succ (Zpos (digits2_pos p)) - 1)%Z
      with (Z.succ (Zpos (digits2_pos p) - 1)) by lia;
    rewrite Z.pow_succ_r by lia; lia.
Qed.

Lemma digits2_pos_shift (p k : positive) :
  digits2_pos (Pos.iter xO p k) = (digits2_pos p + k)%positive.
Proof.
  induction k as [ | k IH] using Pos.peano_ind.
  - cbn. lia.
  - rewrite Pos.iter_succ. cbn [digits2_pos]. rewrite IH. lia.
Qed.

(** A 53-bit mantissa with an exponent in range is kept as it is. *)
Lemma binary_round_aux_exact (m : positive) (e : Z) :
  Zpos (digits2_pos m) = 53%Z -> (-1074 <= e <= 971)%Z ->
  binary_round_aux prec64 emax64 false (Zpos m) e loc_Exact = S754_finite false m e.
Proof.
  intros Hd He.
  assert (Hshift : (fexp prec64 emax64 (Zdigits2 (Zpos m) + e) - e = 0)%Z).
  { unfold fexp, emin, prec64, emax64. cbn [Zdigits2]. rewrite Hd. lia. }
  unfold binary_round_aux, shr_fexp.
  rewrite Hshift. cbn [shr shr_record_of_loc shr_m loc_of_shr_record round_nearest_even].
  rewrite Hshift. cbn [shr shr_record_of_loc shr_m].
  unfold prec64, emax64.
  destruct (Z.leb_spec e (1024 - 53)); [reflexivity | lia].
Qed.

(** [float(n)] of a count below [2 ** 53] is exact: a finite, non-zero
    float, so neither [OverflowError] nor a zero divisor can arise. *)
Lemma float_of_int_small (n : Z) :
  (0 < n < 2 ^ 53)%Z -> exists m e, float_of_int n = Ret (S754_finite false m e).
Proof.
  intros [Hpos Hlt]. destruct n as [ | p | p]; try lia.
  unfold float_of_int. cbn [binary_normalize]. unfold binary_round.
  pose proof (digits2_pos_lower p) as Hlow.
  assert (Hd : (Zpos (digits2_pos p) <= 53)%Z).
  { destruct (Z_le_gt_dec (Zpos (digits2_pos p)) 53) as [ | Hgt]; [assumption | exfalso].
    assert (2 ^ 53 <= 2 ^ (Zpos (digits2_pos p) - 1))%Z by (apply Z.pow_le_mono_r; lia).
    lia. }
  assert (Hfexp : fexp prec64 emax64 (Zpos (digits2_pos p) + 0)
                  = (Zpos (digits2_pos p) - 53)%Z).
  { unfold fexp, emin, prec64, emax64. lia. }
  rewrite Hfexp. unfold shl_align.
  destruct (Zpos (digits2_pos p) - 53 - 0)%Z as [ | d | d] eqn:Hdiff; try lia.
  - rewrite binary_round_aux_exact by lia. eauto.
  - rewrite binary_round_aux_exact; [eauto | | lia].
    rewrite digits2_pos_shift. lia.
Qed.

Lemma fold_add_floats (floats : list spec_float) :
  forall acc,
    fold_step py_add (map PFloat floats) (PFloat acc)
    = Ret (PFloat (fold_left (SFadd prec64 emax64) floats acc)).
Proof.
  induction floats as [ | f floats IH]; intros acc; [reflexivity | ].
  cbn [map fold_step fold_left]. exact (IH _).
Qed.

Lemma py_sum_floats (floats : list spec_float) :
  floats <> [] ->
  py_sum (map PFloat floats)
  = Ret (PFloat (fold_left (SFadd prec64 emax64) floats f_zero)).
Proof.
  destruct floats as [ | f floats]; [congruence | intros _].
  unfold py_sum. cbn [map fold_step].
  change (py_add (PInt 0) (PFloat f)) with (Ret (PFloat (SFadd prec64 emax64 f_zero f))).
  exact (fold_add_floats floats _).
Qed.

(** On a non-empty list of fewer than [2 ** 53] sections whose entries
    all yield a [float], a mean extractor returns: the binary64 sum of the
    values, from the left, divided by the count. *)
Lemma sections_mean_of_floats (feature : string) (json_data : pyval)
    (sections : list pyval) (floats : list spec_float) :
  _search_and_get json_data "sections" = Ret (true, PList sections) ->
  sections <> [] ->
  (Z.of_nat (length sections) < 2 ^ 53)%Z ->
  Forall2 (fun section f => _search_and_get section feature = Ret (true, PFloat f))
    sections floats ->
  exists count,
    float_of_int (Z.of_nat (length floats)) = Ret count
    /\ arithmetic_mean (map PFloat floats)
       = Ret (PFloat (SFdiv prec64 emax64
                        (fold_left (SFadd prec64 emax64) floats f_zero) count))
    /\ sections_mean feature json_data
       = Ret (true, PFloat (SFdiv prec64 emax64
                              (fold_left (SFadd prec64 emax64) floats f_zero) count)).
Proof.
  intros Hsearch Hne Hsmall Hsections.
  assert (Hlen : length sections = length floats)
    by (clear Hsearch Hne Hsmall; induction Hsections; cbn [length]; congruence).
  assert (Hfloats : floats <> [])
    by (intros ->; destruct sections; [congruence | discriminate Hlen]).
  assert (Hfound : Forall2 (fun section x => _search_and_get section feature = Ret (true, x))
                     sections (map PFloat floats))
    by (clear Hsearch Hne Hsmall Hlen Hfloats; induction Hsections;
        constructor; assumption).
  destruct (float_of_int_small (Z.of_nat (length floats))) as (m & e & Hcount).
  { rewrite <- Hlen. split; [ | exact Hsmall].
    destruct sections; [congruence | cbn [length]; lia]. }
  assert (Hmean : arithmetic_mean (map PFloat floats)
                  = Ret (PFloat (SFdiv prec64 emax64
                                   (fold_left (SFadd prec64 emax64) floats f_zero)
                                   (S754_finite false m e)))).
  { unfold arithmetic_mean. rewrite (py_sum_floats floats Hfloats), length_map.
    cbn [mbind result_bind py_truediv as_num]. rewrite Hcount. reflexivity. }
  exists (S754_finite false m e). repeat split; [exact Hcount | exact Hmean | ].
  unfold sections_mean. rewrite Hsearch.
  cbn [mbind result_bind negb py_len py_iter].
  replace (Nat.eqb (length sections) 0) with false
    by (destruct sections; [congruence | reflexivity]).
  rewrite (for_sections_fold _ _ _ _ Hfound).
  unfold arithmetic_mean, py_sum in Hmean. rewrite length_map, <- Hlen in Hmean.
  destruct (fold_step py_add (map PFloat floats) (PInt 0)) as [total | err];
    [ | discriminate Hmean].
  cbn [mbind result_bind] in Hmean |- *. rewrite Hmean. reflexivity.
Qed.

(** *** When the mean returns, and how it fails *)

(** Adding a number to a numeric accumulator gives a numeric accumulator,
    or fails with [OverflowError] when an [int] does not fit a float. *)
Lemma py_add_number (acc x : pyval) :
  as_num acc <> None -> is_number x = true ->
  (exists acc', py_add acc x = Ret acc' /\ as_num acc' <> None)
  \/ py_add acc x = Raise OverflowError.
Proof.
  intros Hacc Hx. unfold py_add.
  destruct (as_num acc) as [[a | f] | ]; [ | | congruence];
    destruct x as [ | ? | z | g | ? | ? | ?]; try discriminate Hx;
    cbn [as_num]; unfold float_of_int;
    try (left; eexists; split; [reflexivity | discriminate]).
  - destruct (binary_normalize prec64 emax64 a 0 false);
      first [right; reflexivity | left; eexists; split; [reflexivity | discriminate]].
  - destruct (binary_normalize prec64 emax64 z 0 false);
      first [right; reflexivity | left; eexists; split; [reflexivity | discriminate]].
Qed.

Lemma fold_add_numbers (values : list pyval) :
  Forall (fun x => is_number x = true) values ->
  forall acc, as_num acc <> None ->
    (exists total, fold_step py_add values acc = Ret total /\ as_num total <> None)
    \/ fold_step py_add values acc = Raise OverflowError.
Proof.
  induction 1 as [ | x values Hx _ IH]; intros acc Hacc.
  - left. exists acc. split; [reflexivity | exact Hacc].
  - cbn [fold_step].
    destruct (py_add_number acc x Hacc Hx) as [(acc' & -> & Hacc') | ->];
      [exact (IH acc' Hacc') | right; reflexivity].
Qed.

(** Dividing a numeric total by a count between 1 and [2 ** 53] gives a
    float, or fails with [OverflowError] when the quotient of two [int]s
    does not fit one. *)
Lemma py_truediv_count (total : pyval) (n : Z) :
  as_num total <> None -> (0 < n < 2 ^ 53)%Z ->
  (exists q, py_truediv total (PInt n) = Ret (PFloat q))
  \/ py_truediv total (PInt n) = Raise OverflowError.
Proof.
  intros Htotal Hn. unfold py_truediv. cbn [as_num].
  destruct (as_num total) as [[x | f] | ]; [ | | congruence].
  - unfold int_truediv.
    replace (n =? 0)%Z with false by (symmetry; apply Z.eqb_neq; lia).
    destruct (SFdiv_core_binary _ _ _ _ _ _) as [[q e] l].
    destruct (binary_round_aux _ _ _ _ _ _);
      first [right; reflexivity | left; eexists; reflexivity].
  - destruct (float_of_int_small n Hn) as (m & e & ->).
    left. eexists. reflexivity.
Qed.

(** The sum divided by the count, over a non-empty list of fewer than
    [2 ** 53] numbers, is a float or fails with [OverflowError]. *)
Lemma arithmetic_mean_outcome (values : list pyval) :
  values <> [] ->
  (Z.of_nat (length values) < 2 ^ 53)%Z ->
  Forall (fun x => is_number x = true) values ->
  (exists q, arithmetic_mean values = Ret (PFloat q))
  \/ arithmetic_mean values = Raise OverflowError.
Proof.
  intros Hne Hsmall Hnums. unfold arithmetic_mean, py_sum.
  destruct (fold_add_numbers values Hnums (PInt 0)) as [(total & -> & Htotal) | ->];
    [discriminate | | right; reflexivity].
  cbn [mbind result_bind]. apply py_truediv_count; [exact Htotal | ].
  split; [ | exact Hsmall]. destruct values; [congruence | cbn [length]; lia].
Qed.

(** C6, as stated, fails for the mean: an [int] is a number, and an
    [int] beyond the range of a float makes the division of the sum by
    the count raise.  On the record whose only section has entropy
    [10 ** 400] the extractor for [sections_mean_entropy] does not return
    the mean: [OverflowError] escapes it. *)
Lemma huge_int_entropy_mean_raises :
  _search_and_get (PDict [("sections", PList [PDict [("entropy", PInt (10 ^ 400))]])])
    "sections"
  = Ret (true, PList [PDict [("entropy", PInt (10 ^ 400))]])
  /\ _search_and_get (PDict [("entropy", PInt (10 ^ 400))]) "entropy"
     = Ret (true, PInt (10 ^ 400))
  /\ extract (PDict [("sections", PList [PDict [("entropy", PInt (10 ^ 400))]])])
       "sections_mean_entropy"
     = Raise OverflowError
  /\ ~ (forall (json_data : pyval) (sections values : list pyval),
         _search_and_get json_data "sections" = Ret (true, PList sections) ->
         sections <> [] ->
         Forall2 (fun section x =>
                    _search_and_get section "entropy" = Ret (true, x)
                    /\ is_number x = true)
           sections values ->
         exists mean, extract json_data "sections_mean_entropy" = Ret (true, mean)).
Proof.
  assert (Hraise : extract
                     (PDict [("sections", PList [PDict [("entropy", PInt (10 ^ 400))]])])
                     "sections_mean_entropy" = Raise OverflowError)
    by (vm_compute; reflexivity).
  split; [reflexivity | split; [reflexivity | split; [exact Hraise | ]]].
  intros Hclaim.
  destruct (Hclaim (PDict [("sections", PList [PDict [("entropy", PInt (10 ^ 400))]])])
              [PDict [("entropy", PInt (10 ^ 400))]] [PInt (10 ^ 400)])
    as [mean Hmean].
  - reflexivity.
  - discriminate.
  - constructor; [split; reflexivity | constructor].
  - rewrite Hraise in Hmean. discriminate Hmean.
Qed.

(** C6, amended. For every record in which ["sections"] resolves to a
    non-empty sequence of mappings in each of which ["entropy"] resolves
    to a number (an [int], or a [float] other than NaN), the extractors
    for [sections_min_entropy] and [sections_max_entropy] return the
    minimum and the maximum of the per-entry values, and the extractor
    for [sections_mean_entropy] returns their arithmetic mean -- the sum
    divided by the count -- whenever Python's arithmetic yields that
    quotient, which it always does when the values are floats (and there
    are fewer than [2 ** 53] of them); when it does not, because an [int]
    value, sum or quotient is beyond the range of a float, the extractor
    raises [OverflowError] instead of returning. *)
Theorem sections_entropy_min_max_and_mean (json_data : pyval)
    (sections values : list pyval) :
  _search_and_get json_data "sections" = Ret (true, PList sections) ->
  sections <> [] ->
  Forall2 (fun section x =>
             _search_and_get section "entropy" = Ret (true, x) /\ is_number x = true)
    sections values ->
  (exists lowest,
     extract json_data "sections_min_entropy" = Ret (true, lowest)
     /\ is_minimum lowest values)
  /\ (exists highest,
        extract json_data "sections_max_entropy" = Ret (true, highest)
        /\ is_maximum highest values)
  /\ (forall mean,
        arithmetic_mean values = Ret mean ->
        extract json_data "sections_mean_entropy" = Ret (true, mean))
  /\ (forall floats,
        values = map PFloat floats ->
        (Z.of_nat (length sections) < 2 ^ 53)%Z ->
        exists mean,
          arithmetic_mean values = Ret mean
          /\ extract json_data "sections_mean_entropy" = Ret (true, mean))
  /\ (forall e,
        arithmetic_mean values = Raise e ->
        extract json_data "sections_mean_entropy" = Raise e
        /\ ((Z.of_nat (length sections) < 2 ^ 53)%Z -> e = OverflowError)).
Proof.
  intros Hsearch Hne Hsections.
  destruct (sections_aggregates "entropy" json_data sections values Hsearch Hne Hsections)
    as (Hmean & Hmin & Hmax).
  change (extract json_data "sections_mean_entropy"
          = (mean ← arithmetic_mean values; Ret (true, mean))) in Hmean.
  destruct (sections_loop_inputs _ _ _ Hsections) as (_ & Hnums & Hlen).
  assert (Hvalues : values <> [])
    by (intros ->; destruct sections; [congruence | discriminate Hlen]).
  split; [exact Hmin | split; [exact Hmax | split; [ | split]]].
  - intros mean Hreturns. rewrite Hmean, Hreturns. reflexivity.
  - intros floats -> Hsmall.
    assert (Hfound : Forall2 (fun section f =>
                                _search_and_get section "entropy" = Ret (true, PFloat f))
                       sections floats).
    { clear Hsearch Hne Hmean Hmin Hmax Hnums Hlen Hvalues Hsmall.
      remember (map PFloat floats) as values eqn:Hmap. revert floats Hmap.
      induction Hsections as [ | section x sections values [Hx _] _ IH];
        intros [ | f floats] Hmap; try discriminate Hmap; constructor.
      - injection Hmap as -> _. exact Hx.
      - injection Hmap as _ Hmap. exact (IH floats Hmap). }
    destruct (sections_mean_of_floats "entropy" json_data sections floats
                Hsearch Hne Hsmall Hfound) as (count & _ & Hspec & Hcode).
    eexists. split; [exact Hspec | exact Hcode].
  - intros e Hraises. split; [rewrite Hmean, Hraises; reflexivity | ].
    intros Hsmall. rewrite Hlen in Hsmall.
    destruct (arithmetic_mean_outcome values Hvalues Hsmall Hnums) as [[q Hq] | Hq];
      rewrite Hq in Hraises; [discriminate Hraises | ].
    injection Hraises as <-. reflexivity.
Qed.

Lemma sections_entropy_min_max_and_mean_witness :
  (exists lowest,
     extract sample_sections "sections_min_entropy" = Ret (true, lowest)
     /\ is_minimum lowest [PFloat f_1_0; PFloat f_3_5])
  /\ (exists highest,
        extract sample_sections "sections_max_entropy" = Ret (true, highest)
        /\ is_maximum highest [PFloat f_1_0; PFloat f_3_5])
  /\ extract sample_sections "sections_mean_entropy" = Ret (true, PFloat f_2_25).
Proof.
  destruct (sections_entropy_min_max_and_mean sample_sections
              [PDict [("name", PStr ".text"); ("size", PInt 512);
                      ("entropy", PFloat f_1_0); ("vsize", PInt 500)];
               PDict [("name", PStr ".data"); ("size", PInt 1024);
                      ("entropy", PFloat f_3_5); ("vsize", PInt 4096)]]
              [PFloat f_1_0; PFloat f_3_5])
    as (Hmin & Hmax & Hmean & _ & _).
  - reflexivity.
  - discriminate.
  - repeat constructor.
  - split; [exact Hmin | split; [exact Hmax | ]].
    apply (Hmean (PFloat f_2_25)). reflexivity.
Defined.

(** ** The conversion entry point *)

Section ConvertProperties.

Variable json_loads : string -> option pyval.
Variable splitext_root : string -> string.
Variable csv_line : list pyval -> string.

Lemma check_file_path_exists (fs : gmap string (list string)) (file_path : string)
    (lines : list string) :
  fs !! file_path = Some lines -> check_file_path fs file_path = true.
Proof.
  intros Hfile. unfold check_file_path.
  rewrite bool_decide_eq_true_2 by (rewrite Hfile; eauto). reflexivity.
Qed.

(** Lines that decode and project are written one row each, and the
    loop goes on. *)
Lemma for_lines_rows (self : EMBERJsonlToCSV) (csv_file_path : string)
    (before : list string) (rows : list (list pyval)) :
  Forall2 (fun line row =>
             exists json_data,
               json_loads line = Some json_data
               /\ emitted_row self json_data = Some row)
    before rows ->
  forall (rest written : list string) (fs : gmap string (list string)),
    for_lines json_loads csv_line self csv_file_path (before ++ rest)
      (<[csv_file_path := written]> fs)
    = for_lines json_loads csv_line self csv_file_path rest
        (<[csv_file_path := (written ++ map csv_line rows)%list]> fs).
Proof.
  induction 1 as [ | line row before rows (json_data & Hline & Hrow) _ IH];
    intros rest written fs.
  - cbn [app map]. rewrite app_nil_r. reflexivity.
  - cbn [app for_lines map]. rewrite Hline.
    unfold emitted_row in Hrow.
    destruct (project self json_data) as [data | | | ]; try discriminate Hrow.
    injection Hrow as <-.
    unfold write_line. rewrite lookup_insert_eq. cbn [default].
    rewrite insert_insert_eq, IH, <- app_assoc. reflexivity.
Qed.

(** What happens at a line [json.loads] rejects: [convert] does not
    return.  The [except] branch calls [e.msg()], [e.msg] is a string,
    and the [TypeError] leaves [convert] before [os.remove] and
    [return False] are reached; the CSV file stays, with its header and
    the rows of the lines before. *)
Lemma convert_at_undecodable_line (self : EMBERJsonlToCSV)
    (fs : gmap string (list string)) (file_path : string)
    (before : list string) (bad : string) (after : list string)
    (rows : list (list pyval)) :
  fs !! file_path = Some (before ++ bad :: after)%list ->
  fs !! (splitext_root file_path ++ ".csv") = None ->
  Forall2 (fun line row =>
             exists json_data,
               json_loads line = Some json_data
               /\ emitted_row self json_data = Some row)
    before rows ->
  json_loads bad = None ->
  convert json_loads splitext_root csv_line self fs file_path
  = (Raise TypeError,
     <[splitext_root file_path ++ ".csv" :=
         csv_line (map PStr (_features self)) :: map csv_line rows]> fs).
Proof.
  intros Hfile Hcsv Hrows Hbad. unfold convert.
  rewrite (check_file_path_exists _ _ _ Hfile). cbn [negb].
  rewrite bool_decide_eq_false_2 by (rewrite Hcsv; intros [x Hx]; discriminate Hx).
  rewrite lookup_insert_ne by (intros Heq; rewrite Heq, Hfile in Hcsv; discriminate Hcsv).
  rewrite Hfile, (for_lines_rows _ _ _ _ Hrows).
  cbn [for_lines app]. rewrite Hbad. reflexivity.
Qed.

(** [convert] leaves without touching the file system when the output
    path is taken. *)
Lemma convert_output_taken (self : EMBERJsonlToCSV)
    (fs : gmap string (list string)) (file_path : string) :
  is_Some (fs !! (splitext_root file_path ++ ".csv")) ->
  convert json_loads splitext_root csv_line self fs file_path = (Ret false, fs).
Proof.
  intros Htaken. unfold convert.
  destruct (negb (check_file_path fs file_path)); [reflexivity | ].
  rewrite bool_decide_eq_true_2 by exact Htaken. reflexivity.
Qed.

End ConvertProperties.

(** C4. [convert] on a source whose lines decode and project up to a line
    that [json.loads] rejects (and whose output path is free) does abort at
    that line, but neither deletes the CSV file nor returns [False]: the
    handler's [print(e.msg())] calls a string, the [TypeError] escapes
    [convert], and the partially written file -- header and the rows of
    the lines before -- remains. *)
Theorem undecodable_line_leaves_partial_output
    (json_loads : string -> option pyval) (splitext_root : string -> string)
    (csv_line : list pyval -> string) (self : EMBERJsonlToCSV)
    (fs : gmap string (list string)) (file_path : string)
    (before : list string) (bad : string) (after : list string)
    (rows : list (list pyval)) :
  fs !! file_path = Some (before ++ bad :: after)%list ->
  fs !! (splitext_root file_path ++ ".csv") = None ->
  Forall2 (fun line row =>
             exists json_data,
               json_loads line = Some json_data
               /\ emitted_row self json_data = Some row)
    before rows ->
  json_loads bad = None ->
  fst (convert json_loads splitext_root csv_line self fs file_path) = Raise TypeError
  /\ snd (convert json_loads splitext_root csv_line self fs file_path)
       !! (splitext_root file_path ++ ".csv")
     = Some (csv_line (map PStr (_features self)) :: map csv_line rows).
Proof.
  intros Hfile Hcsv Hrows Hbad.
  rewrite (convert_at_undecodable_line json_loads splitext_root csv_line self fs
             file_path before bad after rows Hfile Hcsv Hrows Hbad).
  cbn [fst snd]. split; [reflexivity | apply lookup_insert_eq].
Qed.

Lemma undecodable_line_leaves_partial_output_witness :
  fst (convert sample_loads posix_splitext_root sample_csv_line (__init__ [])
         {[ "data/train.jsonl" := [labelled_line; "not json"; labelled_line] ]}
         "data/train.jsonl")
  = Raise TypeError
  /\ snd (convert sample_loads posix_splitext_root sample_csv_line (__init__ [])
            {[ "data/train.jsonl" := [labelled_line; "not json"; labelled_line] ]}
            "data/train.jsonl")
       !! "data/train.csv"
     = Some ["label"; "1"].
Proof.
  apply (undecodable_line_leaves_partial_output
           sample_loads posix_splitext_root sample_csv_line (__init__ [])
           {[ "data/train.jsonl" := [labelled_line; "not json"; labelled_line] ]}
           "data/train.jsonl" [labelled_line] "not json" [labelled_line] [[PInt 1]]).
  - reflexivity.
  - reflexivity.
  - constructor; [ | constructor].
    exists (PDict [("label", PInt 1)]). split; reflexivity.
  - reflexivity.
Defined.

(** C9. For every source path whose derived output path -- the source
    path with its extension replaced by [.csv] -- already exists,
    [convert] returns [False] and leaves the file system, and so the
    existing output file, as it was. *)
Theorem convert_refuses_existing_output
    (json_loads : string -> option pyval) (splitext_root : string -> string)
    (csv_line : list pyval -> string) (self : EMBERJsonlToCSV)
    (fs : gmap string (list string)) (file_path : string) :
  is_Some (fs !! (splitext_root file_path ++ ".csv")) ->
  convert json_loads splitext_root csv_line self fs file_path = (Ret false, fs)
  /\ snd (convert json_loads splitext_root csv_line self fs file_path)
       !! (splitext_root file_path ++ ".csv")
     = fs !! (splitext_root file_path ++ ".csv").
Proof.
  intros Htaken.
  rewrite (convert_output_taken json_loads splitext_root csv_line self fs file_path Htaken).
  split; reflexivity.
Qed.

Lemma convert_refuses_existing_output_witness :
  convert sample_loads posix_splitext_root sample_csv_line (__init__ ["md5"])
    {[ "data/train.jsonl" := [labelled_line]; "data/train.csv" := ["md5,label"; "0abc,0"] ]}
    "data/train.jsonl"
  = (Ret false,
     {[ "data/train.jsonl" := [labelled_line]; "data/train.csv" := ["md5,label"; "0abc,0"] ]}).
Proof.
  refine (proj1 (convert_refuses_existing_output
           sample_loads posix_splitext_root sample_csv_line (__init__ ["md5"])
           {[ "data/train.jsonl" := [labelled_line];
              "data/train.csv" := ["md5,label"; "0abc,0"] ]}
           "data/train.jsonl" _)).
  vm_compute. eauto.
Defined.


(** * Further properties of the code *)

(** ** More on the generic search *)

Lemma search_elems_no_mapping (feature : string) (elems : list pyval) :
  forallb (fun item => negb (is_dict item)) elems = true ->
  search_elems feature elems = Ret (false, PNone).
Proof.
  induction elems as [ | item elems IH]; [reflexivity | ].
  cbn [forallb]. intros [Hitem Hrest]%andb_prop.
  rewrite search_elems_cons.
  destruct item; try exact (IH Hrest). discriminate Hitem.
Qed.

Lemma search_below_no_mapping (feature : string) (value : pyval) :
  holds_no_mapping value = true -> search_below feature value = Ret (false, PNone).
Proof.
  destruct value; try reflexivity; cbn [holds_no_mapping search_below].
  - apply search_elems_no_mapping.
  - discriminate.
Qed.

(** X1. On a mapping none of whose values is a mapping or a sequence with
    a mapping among its elements, the search is the plain lookup of the
    key among the mapping's own items: mappings that sit deeper, inside a
    sequence of sequences, are never reached. *)
Theorem search_flat_is_lookup (items : list (string * pyval)) (feature : string) :
  forallb (fun kv => holds_no_mapping (snd kv)) items = true ->
  _search_and_get (PDict items) feature = Ret (lookup_outcome items feature).
Proof.
  rewrite search_dict_unfold. unfold lookup_outcome.
  induction items as [ | [key value] items IH]; [reflexivity | ].
  cbn [forallb snd]. intros [Hvalue Hrest]%andb_prop.
  rewrite search_items_cons. cbn [dict_get].
  destruct (String.eqb key feature); [reflexivity | ].
  rewrite (search_below_no_mapping feature value Hvalue). exact (IH Hrest).
Qed.

Lemma search_flat_is_lookup_witness :
  _search_and_get
    (PDict [("name", PStr ".text"); ("size", PInt 512);
            ("props", PList [PStr "CNT_CODE"; PList [PDict [("vsize", PInt 1)]]]);
            ("vsize", PInt 500)]) "vsize"
  = Ret (true, PInt 500).
Proof.
  apply (search_flat_is_lookup
           [("name", PStr ".text"); ("size", PInt 512);
            ("props", PList [PStr "CNT_CODE"; PList [PDict [("vsize", PInt 1)]]]);
            ("vsize", PInt 500)] "vsize").
  reflexivity.
Defined.

Lemma search_items_app (feature : string) (first rest : list (string * pyval)) :
  search_items feature (first ++ rest) =
  match search_items feature first with
  | Ret (true, value) => Ret (true, value)
  | Ret (false, _) => search_items feature rest
  | Raise e => Raise e
  end.
Proof.
  induction first as [ | [key value] first IH]; [reflexivity | ].
  cbn [app]. rewrite !search_items_cons.
  destruct (String.eqb key feature); [reflexivity | ].
  destruct (search_below feature value) as [[[ | ] found] | e]; [reflexivity | exact IH | reflexivity].
Qed.

(** X2. Searching a mapping whose items are [first] followed by [rest]
    is searching [first] and, only when that finds nothing, [rest]: what
    is found among the earlier items is never changed by items that come
    later. *)
Theorem search_earlier_items_first (first rest : list (string * pyval)) (feature : string) :
  _search_and_get (PDict (first ++ rest)) feature =
  match _search_and_get (PDict first) feature with
  | Ret (true, value) => Ret (true, value)
  | Ret (false, _) => _search_and_get (PDict rest) feature
  | Raise e => Raise e
  end.
Proof. rewrite !search_dict_unfold. apply search_items_app. Qed.

(** X3. Whenever the search of a mapping returns, a value it reports as
    found is stored under the feature's name somewhere in the record's
    walk, and a miss carries [None]. *)
Theorem search_returns_stored_value (items : list (string * pyval)) (feature : string)
    (status : bool) (value : pyval) :
  _search_and_get (PDict items) feature = Ret (status, value) ->
  (status = true -> In (feature, value) (preorder (PDict items)))
  /\ (status = false -> value = PNone).
Proof.
  pose proof (search_refines_walk (PDict items) feature) as Heq.
  cbn [search_below below] in Heq. rewrite Heq. unfold first_match.
  destruct (find _ (preorder (PDict items))) as [[key found] | ] eqn:Hfind;
    cbn [outcome_of]; intros [= <- <-]; (split; [ | discriminate || reflexivity]).
  - intros _. apply find_some in Hfind as [Hin Hkey].
    cbn [fst] in Hkey. apply String.eqb_eq in Hkey. subst key. exact Hin.
  - discriminate.
Qed.

Lemma search_returns_stored_value_witness :
  In ("label", PInt 1) (preorder sample_directories).
Proof.
  apply (search_returns_stored_value
           [("header", PDict [("optional", PDict [("major_linker_version", PInt 14)])]);
            ("datadirectories", PList (map directory_entry (seq 0 13)));
            ("label", PInt 1)] "label" true (PInt 1));
    reflexivity.
Defined.

(** X4. An entry whose value is a sequence of sequences contributes
    nothing to a search for another key, whatever the inner sequences
    hold: mappings nested in a sequence inside a sequence are not
    entered. *)
Theorem search_skips_nested_sequences (before after : list (string * pyval))
    (key : string) (inner : list (list pyval)) (feature : string) :
  key <> feature ->
  _search_and_get (PDict (before ++ (key, PList (map PList inner)) :: after)) feature
  = _search_and_get (PDict (before ++ after)) feature.
Proof.
  intros Hkey. rewrite !search_dict_unfold, !search_items_app, search_items_cons.
  apply String.eqb_neq in Hkey. rewrite Hkey.
  rewrite search_below_no_mapping; [reflexivity | ].
  cbn [holds_no_mapping]. induction inner as [ | l inner IH]; [reflexivity | exact IH].
Qed.

Lemma search_skips_nested_sequences_witness :
  _search_and_get
    (PDict [("imports", PList [PList [PDict [("label", PInt 1)]]]); ("md5", PStr "0abc")])
    "label"
  = Ret (false, PNone).
Proof.
  refine (eq_trans
            (search_skips_nested_sequences [] [("md5", PStr "0abc")] "imports"
               [[PDict [("label", PInt 1)]]] "label" _) _);
    [discriminate | reflexivity].
Defined.

(** ** More on the data-directory extractors *)

Lemma directory_slots_extract (feature : string) (i : nat) (key : string)
    (json_data : pyval) :
  In (feature, i, key) directory_slots ->
  extract json_data feature =
    ('(status, datadirectories) ← _search_and_get json_data "datadirectories";
     if negb status then Ret (false, PNone)
     else
       n ← py_len datadirectories;
       if Nat.eqb n 0 then Ret (true, PFloat f_zero)
       else
         entry ← py_index datadirectories i;
         x ← py_field entry key;
         Ret (true, x)).
Proof.
  intros Hslot. unfold directory_slots in Hslot. cbn [In] in Hslot.
  repeat (destruct Hslot as [Hslot | Hslot]; [injection Hslot as <- <- <-; reflexivity | ]).
  destruct Hslot.
Qed.

(** X5. On a record whose data-directory table resolves to a non-empty
    sequence, each of the six data-directory features reads its fixed
    position and field with no check of its own: a table too short for the
    position raises [IndexError], an entry that is not a mapping raises
    [TypeError], a mapping without the field raises [KeyError], and
    otherwise the field's value is returned. *)
Theorem directory_extractors_unchecked (json_data : pyval) (dds : list pyval)
    (feature : string) (i : nat) (key : string) :
  In (feature, i, key) directory_slots ->
  _search_and_get json_data "datadirectories" = Ret (true, PList dds) ->
  dds <> [] ->
  extract json_data feature =
    match nth_error dds i with
    | None => Raise IndexError
    | Some (PDict entry) =>
        match dict_get entry key with
        | Some value => Ret (true, value)
        | None => Raise KeyError
        end
    | Some _ => Raise TypeError
    end.
Proof.
  intros Hslot Hsearch Hne.
  rewrite (directory_slots_extract feature i key json_data Hslot), Hsearch.
  cbn [mbind result_bind negb py_len py_index].
  destruct dds as [ | d dds]; [congruence | ]. cbn [length Nat.eqb].
  destruct (nth_error (d :: dds) i) as [entry | ]; [ | reflexivity].
  cbn [mbind result_bind].
  destruct entry as [ | ? | ? | ? | ? | ? | items]; try reflexivity.
  cbn [py_field]. destruct (dict_get items key); reflexivity.
Qed.

Lemma directory_extractors_unchecked_witness :
  extract (PDict [("datadirectories", PList (map directory_entry (seq 0 7)))]) "iat_rva"
  = Raise IndexError.
Proof.
  exact (directory_extractors_unchecked
           (PDict [("datadirectories", PList (map directory_entry (seq 0 7)))])
           (map directory_entry (seq 0 7)) "iat_rva" 12 "virtual_address"
           (or_intror (or_intror (or_introl eq_refl))) eq_refl
           (fun H => eq_ind (map directory_entry (seq 0 7))
                       (fun l => match l with [] => False | _ => True end) I [] H)).
Defined.

(** X6. On a record in which ["datadirectories"] is not found, each of the
    six data-directory features is reported as not extracted, [(False,
    None)]; the generic search for the feature's own name is never
    tried, so a key of that name in the record does not help. *)
Theorem directory_features_need_table (json_data : pyval) :
  _search_and_get json_data "datadirectories" = Ret (false, PNone) ->
  Forall (fun slot => extract json_data (fst (fst slot)) = Ret (false, PNone))
    directory_slots.
Proof.
  intros Hsearch. rewrite Forall_forall. intros [[feature i] key] Hslot%list_elem_of_In.
  cbn [fst]. rewrite (directory_slots_extract feature i key json_data Hslot), Hsearch.
  reflexivity.
Qed.

Lemma directory_features_need_table_witness :
  extract (PDict [("export_size", PInt 4096); ("label", PInt 0)]) "export_size"
  = Ret (false, PNone).
Proof.
  pose proof (directory_features_need_table
                (PDict [("export_size", PInt 4096); ("label", PInt 0)]) eq_refl) as Hall.
  rewrite Forall_forall in Hall.
  apply (Hall ("export_size", 0, "size")).
  apply list_elem_of_In. right. right. right. left. reflexivity.
Defined.

(** X7. When ["datadirectories"] resolves to something of length zero --
    an empty sequence, and just as well an empty mapping or an empty
    string -- each of the six data-directory features succeeds with the
    float [0.0]. *)
Theorem empty_table_reads_as_zero (json_data table : pyval) :
  _search_and_get json_data "datadirectories" = Ret (true, table) ->
  py_len table = Ret 0 ->
  Forall (fun slot => extract json_data (fst (fst slot)) = Ret (true, PFloat f_zero))
    directory_slots.
Proof.
  intros Hsearch Hlen. rewrite Forall_forall.
  intros [[feature i] key] Hslot%list_elem_of_In.
  cbn [fst]. rewrite (directory_slots_extract feature i key json_data Hslot), Hsearch.
  cbn [mbind result_bind negb]. rewrite Hlen. reflexivity.
Qed.

Lemma empty_table_reads_as_zero_witness :
  Forall (fun slot =>
            extract (PDict [("datadirectories", PDict [])]) (fst (fst slot))
            = Ret (true, PFloat f_zero))
    directory_slots.
Proof.
  apply (empty_table_reads_as_zero (PDict [("datadirectories", PDict [])]) (PDict []));
    reflexivity.
Defined.

(** ** More on the section aggregates *)

Lemma aggregate_fields_extract (field mean lowest highest : string) (json_data : pyval) :
  In (field, mean, lowest, highest) aggregate_fields ->
  extract json_data mean = sections_mean field json_data
  /\ extract json_data lowest = sections_min field json_data
  /\ extract json_data highest = sections_max field json_data.
Proof.
  intros Hrow. unfold aggregate_fields in Hrow. cbn [In] in Hrow.
  repeat (destruct Hrow as [Hrow | Hrow];
          [injection Hrow as <- <- <- <-; repeat split; reflexivity | ]).
  destruct Hrow.
Qed.

(** X8. On a record in which ["sections"] is not found, each of the nine
    section aggregates is reported as not extracted, [(False, None)]. *)
Theorem section_features_need_sections (json_data : pyval) :
  _search_and_get json_data "sections" = Ret (false, PNone) ->
  Forall (fun row =>
            let '(_, mean, lowest, highest) := row in
            extract json_data mean = Ret (false, PNone)
            /\ extract json_data lowest = Ret (false, PNone)
            /\ extract json_data highest = Ret (false, PNone))
    aggregate_fields.
Proof.
  intros Hsearch. rewrite Forall_forall.
  intros [[[field mean] lowest] highest] Hrow%list_elem_of_In.
  destruct (aggregate_fields_extract field mean lowest highest json_data Hrow)
    as (-> & -> & ->).
  unfold sections_mean, sections_min, sections_max. rewrite Hsearch.
  repeat split; reflexivity.
Qed.

Lemma section_features_need_sections_witness :
  Forall (fun row =>
            let '(_, mean, lowest, highest) := row in
            extract (PDict [("sections_min_entropy", PInt 3)]) mean = Ret (false, PNone)
            /\ extract (PDict [("sections_min_entropy", PInt 3)]) lowest
               = Ret (false, PNone)
            /\ extract (PDict [("sections_min_entropy", PInt 3)]) highest
               = Ret (false, PNone))
    aggregate_fields.
Proof.
  apply (section_features_need_sections (PDict [("sections_min_entropy", PInt 3)])).
  reflexivity.
Defined.

(** X9. The raw-size and virtual-size aggregates behave as the entropy
    ones: on a non-empty section list whose entries all yield a number
    for the field (["size"], ["vsize"] or ["entropy"]), the mean feature
    returns the sum of the values divided by their count, the minimum
    feature a minimum of the values and the maximum feature a maximum. *)
Theorem section_aggregates_of_field (json_data : pyval) (sections values : list pyval)
    (field mean lowest highest : string) :
  In (field, mean, lowest, highest) aggregate_fields ->
  _search_and_get json_data "sections" = Ret (true, PList sections) ->
  sections <> [] ->
  Forall2 (fun section x =>
             _search_and_get section field = Ret (true, x) /\ is_number x = true)
    sections values ->
  extract json_data mean = (m ← arithmetic_mean values; Ret (true, m))
  /\ (exists m, extract json_data lowest = Ret (true, m) /\ is_minimum m values)
  /\ (exists m, extract json_data highest = Ret (true, m) /\ is_maximum m values).
Proof.
  intros Hrow Hsearch Hne Hsections.
  destruct (aggregate_fields_extract field mean lowest highest json_data Hrow)
    as (-> & -> & ->).
  exact (sections_aggregates field json_data sections values Hsearch Hne Hsections).
Qed.

Lemma section_aggregates_of_field_witness :
  extract sample_sections "sections_mean_rawsize"
  = (m ← arithmetic_mean [PInt 512; PInt 1024]; Ret (true, m))
  /\ (exists m, extract sample_sections "sections_min_rawsize" = Ret (true, m)
                /\ is_minimum m [PInt 512; PInt 1024])
  /\ (exists m, extract sample_sections "sections_max_rawsize" = Ret (true, m)
                /\ is_maximum m [PInt 512; PInt 1024]).
Proof.
  refine (section_aggregates_of_field sample_sections _ [PInt 512; PInt 1024]
            "size" "sections_mean_rawsize" "sections_min_rawsize" "sections_max_rawsize"
            (or_intror (or_introl eq_refl)) eq_refl _ _).
  - discriminate.
  - repeat constructor.
Defined.

(** The section loop over [before ++ rest], when every section of
    [before] yields its field. *)
Lemma for_sections_app (step : pyval -> pyval -> result pyval) (feature : string)
    (before rest values : list pyval) :
  Forall2 (fun section x => _search_and_get section feature = Ret (true, x))
    before values ->
  forall acc,
    for_sections step feature (before ++ rest) acc
    = (acc' ← fold_step step values acc; for_sections step feature rest acc').
Proof.
  induction 1 as [ | section x before values Hx _ IH]; intros acc; [reflexivity | ].
  cbn [app for_sections fold_step]. rewrite Hx. cbn [mbind result_bind].
  destruct (step acc x) as [acc' | e]; [apply IH | reflexivity].
Qed.

(** A running minimum or maximum over numbers returns a number. *)
Lemma fold_min_returns (values : list pyval) (acc : pyval) :
  Forall (fun x => is_number x = true) values -> is_number acc = true ->
  exists m, fold_step py_min values acc = Ret m /\ is_number m = true.
Proof.
  intros Hnums Hacc.
  destruct (running_extremum xlt py_min xlt_irrefl xlt_trans xlt_negative_trans
              py_min_picks values Hnums acc Hacc) as (m & Hfold & _ & Hnum & _).
  eauto.
Qed.

Lemma fold_max_returns (values : list pyval) (acc : pyval) :
  Forall (fun x => is_number x = true) values -> is_number acc = true ->
  exists m, fold_step py_max values acc = Ret m /\ is_number m = true.
Proof.
  intros Hnums Hacc.
  destruct (running_extremum (fun a b => xlt b a) py_max xlt_irrefl
              (fun a b c H1 H2 => xlt_trans c b a H2 H1)
              (fun a b c Hb H1 H2 => xlt_negative_trans c b a Hb H2 H1)
              py_max_picks values Hnums acc Hacc) as (m & Hfold & _ & Hnum & _).
  eauto.
Qed.

(** The three aggregate bodies on a section list [before ++ section ::
    after] whose sections in [before] yield numbers: what is left to run
    once the accumulators have passed [before]. *)
Lemma sections_shapes_at (field : string) (json_data : pyval)
    (before : list pyval) (section : pyval) (after values : list pyval) :
  _search_and_get json_data "sections" = Ret (true, PList (before ++ section :: after)) ->
  Forall2 (fun s x => _search_and_get s field = Ret (true, x) /\ is_number x = true)
    before values ->
  (exists m, is_number m = true
     /\ sections_min field json_data
        = (r ← for_sections py_min field (section :: after) m;
           match r with
           | None => Ret (false, PNone)
           | Some lowest => Ret (true, lowest)
           end))
  /\ (exists m, is_number m = true
        /\ sections_max field json_data
           = (r ← for_sections py_max field (section :: after) m;
              match r with
              | None => Ret (false, PNone)
              | Some highest => Ret (true, highest)
              end))
  /\ sections_mean field json_data
     = (total ← py_sum values;
        r ← for_sections py_add field (section :: after) total;
        match r with
        | None => Ret (false, PNone)
        | Some total' =>
            mean ← py_truediv total'
                     (PInt (Z.of_nat (length (before ++ section :: after))));
            Ret (true, mean)
        end).
Proof.
  intros Hsearch Hbefore.
  destruct (sections_loop_inputs _ _ _ Hbefore) as (Hfound & Hnums & _).
  assert (Hcount : Nat.eqb (length (before ++ section :: after)) 0 = false).
  { rewrite length_app. cbn [length]. destruct (length before); reflexivity. }
  destruct (fold_min_returns values (PFloat f_inf) Hnums eq_refl) as (lo & Hlo & Hlonum).
  destruct (fold_max_returns values (PFloat f_neg_inf) Hnums eq_refl) as (hi & Hhi & Hhinum).
  split; [ | split].
  - exists lo. split; [exact Hlonum | ].
    unfold sections_min. rewrite Hsearch.
    cbn [mbind result_bind negb py_len py_iter]. rewrite Hcount.
    rewrite (for_sections_app _ _ _ _ _ Hfound), Hlo. reflexivity.
  - exists hi. split; [exact Hhinum | ].
    unfold sections_max. rewrite Hsearch.
    cbn [mbind result_bind negb py_len py_iter]. rewrite Hcount.
    rewrite (for_sections_app _ _ _ _ _ Hfound), Hhi. reflexivity.
  - unfold sections_mean. rewrite Hsearch.
    cbn [mbind result_bind negb py_len py_iter]. rewrite Hcount.
    rewrite (for_sections_app _ _ _ _ _ Hfound). unfold py_sum.
    destruct (fold_step py_add values (PInt 0)) as [total | e]; reflexivity.
Qed.

(** X10. One section without the field spoils the aggregate: when the
    sections before it yield numbers and it does not hold the field, the
    minimum and maximum features are reported as not extracted, [(False,
    None)], whatever the sections after it hold; so is the mean feature,
    unless adding up the earlier values has already raised. *)
Theorem section_without_field_spoils_aggregate (json_data : pyval)
    (before : list pyval) (section : pyval) (after values : list pyval)
    (field mean lowest highest : string) :
  In (field, mean, lowest, highest) aggregate_fields ->
  _search_and_get json_data "sections" = Ret (true, PList (before ++ section :: after)) ->
  Forall2 (fun s x => _search_and_get s field = Ret (true, x) /\ is_number x = true)
    before values ->
  _search_and_get section field = Ret (false, PNone) ->
  extract json_data lowest = Ret (false, PNone)
  /\ extract json_data highest = Ret (false, PNone)
  /\ extract json_data mean = (total ← py_sum values; Ret (false, PNone)).
Proof.
  intros Hrow Hsearch Hbefore Hmiss.
  destruct (aggregate_fields_extract field mean lowest highest json_data Hrow)
    as (-> & -> & ->).
  destruct (sections_shapes_at field json_data before section after values Hsearch Hbefore)
    as ((lo & _ & ->) & (hi & _ & ->) & ->).
  cbn [for_sections]. rewrite Hmiss. repeat split; try reflexivity.
Qed.

Lemma section_without_field_spoils_aggregate_witness :
  extract (PDict [("sections", PList [PDict [("vsize", PInt 500)];
                                      PDict [("name", PStr ".rsrc")];
                                      PDict [("vsize", PInt 4096)]])])
    "sections_max_virtualsize"
  = Ret (false, PNone).
Proof.
  pose (json_data := PDict [("sections", PList [PDict [("vsize", PInt 500)];
                                                 PDict [("name", PStr ".rsrc")];
                                                 PDict [("vsize", PInt 4096)]])]).
  destruct (section_without_field_spoils_aggregate json_data
              [PDict [("vsize", PInt 500)]] (PDict [("name", PStr ".rsrc")])
              [PDict [("vsize", PInt 4096)]] [PInt 500]
              "vsize" "sections_mean_virtualsize" "sections_min_virtualsize"
              "sections_max_virtualsize") as (_ & Hmax & _).
  - right. right. left. reflexivity.
  - reflexivity.
  - repeat constructor.
  - reflexivity.
  - exact Hmax.
Defined.

(** X11. A section whose field is not a number -- a string, [None], a
    sequence, a mapping -- makes the aggregate raise: after sections that
    yield numbers, the minimum and maximum features raise [TypeError],
    and so does the mean feature unless adding up the earlier values has
    already raised. *)
Theorem section_field_not_a_number_raises (json_data : pyval)
    (before : list pyval) (section : pyval) (after values : list pyval) (x : pyval)
    (field mean lowest highest : string) :
  In (field, mean, lowest, highest) aggregate_fields ->
  _search_and_get json_data "sections" = Ret (true, PList (before ++ section :: after)) ->
  Forall2 (fun s x => _search_and_get s field = Ret (true, x) /\ is_number x = true)
    before values ->
  _search_and_get section field = Ret (true, x) ->
  as_num x = None ->
  extract json_data lowest = Raise TypeError
  /\ extract json_data highest = Raise TypeError
  /\ extract json_data mean = (total ← py_sum values; Raise TypeError).
Proof.
  intros Hrow Hsearch Hbefore Hx Hnan.
  destruct (aggregate_fields_extract field mean lowest highest json_data Hrow)
    as (-> & -> & ->).
  destruct (sections_shapes_at field json_data before section after values Hsearch Hbefore)
    as ((lo & _ & ->) & (hi & _ & ->) & ->).
  cbn [for_sections]. rewrite Hx. cbn [mbind result_bind].
  unfold py_min, py_max, py_gt, py_lt. rewrite Hnan.
  split; [ | split].
  - destruct (as_num lo); reflexivity.
  - destruct (as_num hi); reflexivity.
  - destruct (py_sum values) as [total | e]; [ | reflexivity].
    cbn [mbind result_bind]. unfold py_add. rewrite Hnan.
    destruct (as_num total) as [[z | f] | ]; reflexivity.
Qed.

Lemma section_field_not_a_number_raises_witness :
  extract (PDict [("sections", PList [PDict [("entropy", PFloat f_1_0)];
                                      PDict [("entropy", PStr "high")]])])
    "sections_mean_entropy"
  = Raise TypeError.
Proof.
  pose (json_data := PDict [("sections", PList [PDict [("entropy", PFloat f_1_0)];
                                                 PDict [("entropy", PStr "high")]])]).
  destruct (section_field_not_a_number_raises json_data
              [PDict [("entropy", PFloat f_1_0)]] (PDict [("entropy", PStr "high")])
              [] [PFloat f_1_0] (PStr "high")
              "entropy" "sections_mean_entropy" "sections_min_entropy"
              "sections_max_entropy") as (_ & _ & Hmean).
  - left. reflexivity.
  - reflexivity.
  - repeat constructor.
  - reflexivity.
  - reflexivity.
  - exact Hmean.
Defined.

Lemma py_min_nan (acc : pyval) :
  is_number acc = true -> py_min acc (PFloat S754_nan) = Ret acc.
Proof. destruct acc as [ | ? | ? | f | ? | ? | ?]; try discriminate; reflexivity. Qed.

Lemma py_max_nan (acc : pyval) :
  is_number acc = true -> py_max acc (PFloat S754_nan) = Ret acc.
Proof.
  destruct acc as [ | ? | z | f | ? | ? | ?]; try discriminate; intros _.
  - reflexivity.
  - unfold py_max, py_gt, py_lt. cbn [as_num num_value float_value mbind result_bind].
    destruct (float_value f); reflexivity.
Qed.

Lemma is_nan_eq (x : pyval) : is_nan x = true -> x = PFloat S754_nan.
Proof.
  destruct x as [ | ? | ? | f | ? | ? | ?]; try discriminate.
  destruct f; try discriminate. reflexivity.
Qed.

(** A running minimum or maximum passes over NaN entries. *)
Lemma fold_skips_nan (step : pyval -> pyval -> result pyval) (values : list pyval) :
  (forall acc, is_number acc = true -> step acc (PFloat S754_nan) = Ret acc) ->
  (forall acc x, is_number acc = true -> is_number x = true ->
     exists acc', step acc x = Ret acc' /\ is_number acc' = true) ->
  Forall (fun x => is_number x = true \/ is_nan x = true) values ->
  forall acc, is_number acc = true ->
    fold_step step values acc = fold_step step (List.filter is_number values) acc.
Proof.
  intros Hnan Hstep Hvalues.
  induction Hvalues as [ | x values [Hx | Hx] _ IH]; intros acc Hacc; [reflexivity | | ].
  - cbn [List.filter fold_step]. rewrite Hx. cbn [fold_step].
    destruct (Hstep acc x Hacc Hx) as (acc' & -> & Hacc').
    cbn [mbind result_bind]. exact (IH acc' Hacc').
  - apply is_nan_eq in Hx. subst x. cbn [List.filter is_number fold_step].
    rewrite (Hnan acc Hacc). cbn [mbind result_bind]. exact (IH acc Hacc).
Qed.

Lemma py_min_number (acc x : pyval) :
  is_number acc = true -> is_number x = true ->
  exists acc', py_min acc x = Ret acc' /\ is_number acc' = true.
Proof.
  intros Hacc Hx. rewrite (py_min_picks acc x Hacc Hx).
  destruct (xlt (value_of x) (value_of acc)); eauto.
Qed.

Lemma py_max_number (acc x : pyval) :
  is_number acc = true -> is_number x = true ->
  exists acc', py_max acc x = Ret acc' /\ is_number acc' = true.
Proof.
  intros Hacc Hx. rewrite (py_max_picks acc x Hacc Hx).
  destruct (xlt (value_of acc) (value_of x)); eauto.
Qed.

(** X12. NaN entries never show in a minimum or maximum: on a non-empty
    section list whose entries all yield a number or a NaN for the field,
    the minimum and maximum features return a minimum and a maximum of the
    entries that are not NaN; when every entry is NaN they return the
    start values, [float('inf')] and [float('-inf')]. *)
Theorem nan_entries_are_passed_over (json_data : pyval) (sections values : list pyval)
    (field mean lowest highest : string) :
  In (field, mean, lowest, highest) aggregate_fields ->
  _search_and_get json_data "sections" = Ret (true, PList sections) ->
  sections <> [] ->
  Forall2 (fun section x =>
             _search_and_get section field = Ret (true, x)
             /\ (is_number x = true \/ is_nan x = true))
    sections values ->
  match List.filter is_number values with
  | [] =>
      extract json_data lowest = Ret (true, PFloat f_inf)
      /\ extract json_data highest = Ret (true, PFloat f_neg_inf)
  | numbers =>
      (exists m, extract json_data lowest = Ret (true, m) /\ is_minimum m numbers)
      /\ (exists m, extract json_data highest = Ret (true, m) /\ is_maximum m numbers)
  end.
Proof.
  intros Hrow Hsearch Hne Hsections.
  destruct (aggregate_fields_extract field mean lowest highest json_data Hrow)
    as (_ & -> & ->).
  assert (Hfound : Forall2 (fun section x => _search_and_get section field = Ret (true, x))
                     sections values)
    by (clear Hsearch Hne; induction Hsections as [ | ? ? ? ? [? _]];
        constructor; assumption).
  assert (Hvalues : Forall (fun x => is_number x = true \/ is_nan x = true) values)
    by (clear Hsearch Hne Hfound; induction Hsections as [ | ? ? ? ? [_ ?]];
        constructor; assumption).
  assert (Hcount : Nat.eqb (length sections) 0 = false)
    by (destruct sections; [congruence | reflexivity]).
  assert (Hmin : sections_min field json_data
                 = (m ← fold_step py_min (List.filter is_number values)
                          (PFloat f_inf);
                    Ret (true, m))).
  { unfold sections_min. rewrite Hsearch.
    cbn [mbind result_bind negb py_len py_iter]. rewrite Hcount.
    rewrite (for_sections_fold _ _ _ _ Hfound).
    rewrite (fold_skips_nan py_min values py_min_nan py_min_number Hvalues
               (PFloat f_inf) eq_refl).
    destruct (fold_step py_min _ _); reflexivity. }
  assert (Hmax : sections_max field json_data
                 = (m ← fold_step py_max (List.filter is_number values)
                          (PFloat f_neg_inf);
                    Ret (true, m))).
  { unfold sections_max. rewrite Hsearch.
    cbn [mbind result_bind negb py_len py_iter]. rewrite Hcount.
    rewrite (for_sections_fold _ _ _ _ Hfound).
    rewrite (fold_skips_nan py_max values py_max_nan py_max_number Hvalues
               (PFloat f_neg_inf) eq_refl).
    destruct (fold_step py_max _ _); reflexivity. }
  rewrite Hmin, Hmax.
  assert (Hnums : Forall (fun x => is_number x = true)
                    (List.filter is_number values)).
  { rewrite Forall_forall. intros x Hx%list_elem_of_In%filter_In. apply Hx. }
  destruct (List.filter is_number values) as [ | x numbers] eqn:Hfilter.
  - split; reflexivity.
  - destruct (running_min_is_minimum (x :: numbers)) as (lo & -> & Hlo);
      [discriminate | exact Hnums | ].
    destruct (running_max_is_maximum (x :: numbers)) as (hi & -> & Hhi);
      [discriminate | exact Hnums | ].
    split; [exists lo | exists hi]; split; [reflexivity | exact Hlo | reflexivity | exact Hhi].
Qed.

Lemma nan_entries_are_passed_over_witness :
  (exists m,
     extract (PDict [("sections", PList [PDict [("entropy", PFloat S754_nan)];
                                         PDict [("entropy", PFloat f_3_5)]])])
       "sections_min_entropy" = Ret (true, m)
     /\ is_minimum m [PFloat f_3_5])
  /\ (exists m,
        extract (PDict [("sections", PList [PDict [("entropy", PFloat S754_nan)];
                                            PDict [("entropy", PFloat f_3_5)]])])
          "sections_max_entropy" = Ret (true, m)
        /\ is_maximum m [PFloat f_3_5]).
Proof.
  refine (nan_entries_are_passed_over
            (PDict [("sections", PList [PDict [("entropy", PFloat S754_nan)];
                                        PDict [("entropy", PFloat f_3_5)]])])
            _ [PFloat S754_nan; PFloat f_3_5]
            "entropy" "sections_mean_entropy" "sections_min_entropy"
            "sections_max_entropy" (or_introl eq_refl) eq_refl _ _).
  - discriminate.
  - constructor; [split; [reflexivity | right; reflexivity] | ].
    constructor; [split; [reflexivity | left; reflexivity] | constructor].
Defined.

(** X13. When ["sections"] resolves to something that is not a sequence,
    each of the nine aggregates follows [len]: a value without a length
    ([None], a number, a boolean) raises [TypeError]; an empty mapping or
    an empty string counts as no sections and gives [0.0]; a non-empty
    mapping or string is iterated, and the search on its first key or
    character raises [AttributeError]. *)
Theorem sections_not_a_sequence (json_data resolved : pyval)
    (field mean lowest highest : string) :
  In (field, mean, lowest, highest) aggregate_fields ->
  _search_and_get json_data "sections" = Ret (true, resolved) ->
  (forall elems, resolved <> PList elems) ->
  Forall (fun feature =>
            extract json_data feature =
            match py_len resolved with
            | Raise e => Raise e
            | Ret 0 => Ret (true, PFloat f_zero)
            | Ret (S _) => Raise AttributeError
            end)
    [mean; lowest; highest].
Proof.
  intros Hrow Hsearch Hnolist.
  destruct (aggregate_fields_extract field mean lowest highest json_data Hrow)
    as (Hmean & Hmin & Hmax).
  repeat constructor; [rewrite Hmean | rewrite Hmin | rewrite Hmax];
    unfold sections_mean, sections_min, sections_max; rewrite Hsearch;
    cbn [mbind result_bind negb];
    (destruct resolved as [ | ? | ? | ? | s | elems | items]; try reflexivity;
     [ destruct s; reflexivity
     | destruct (Hnolist elems eq_refl)
     | destruct items; reflexivity ]).
Qed.

Lemma sections_not_a_sequence_witness :
  Forall (fun feature =>
            extract (PDict [("sections", PNone)]) feature = Raise TypeError)
    ["sections_mean_rawsize"; "sections_min_rawsize"; "sections_max_rawsize"].
Proof.
  apply (sections_not_a_sequence (PDict [("sections", PNone)]) PNone
           "size" "sections_mean_rawsize" "sections_min_rawsize" "sections_max_rawsize").
  - right. left. reflexivity.
  - reflexivity.
  - discriminate.
Defined.

(** ** More on projecting a record *)

Lemma extract_not_dict (json_data : pyval) (feature : string) :
  is_dict json_data = false -> extract json_data feature = Raise AttributeError.
Proof.
  intros Hdict. unfold extract.
  repeat match goal with
         | |- context [String.eqb feature ?name] => destruct (String.eqb feature name)
         end;
    destruct json_data; try discriminate Hdict; reflexivity.
Qed.

Lemma init_schema (features : list string) :
  exists others, _features (__init__ features) = (others ++ [target])%list.
Proof. unfold __init__. cbn [_features]. eauto. Qed.

(** X14. A decoded line that is not a JSON object -- a sequence, a
    number, a string, a boolean, [null] -- cannot be projected under any
    schema the constructor builds: the first feature's lookup calls
    [.items()] on it and [AttributeError] escapes. *)
Theorem non_object_line_raises (features : list string) (json_data : pyval) :
  is_dict json_data = false ->
  project (__init__ features) json_data = RowRaised AttributeError.
Proof.
  intros Hdict. unfold project.
  destruct (init_schema features) as [others ->].
  destruct others as [ | first others]; cbn [app for_features];
    rewrite (extract_not_dict _ _ Hdict); reflexivity.
Qed.

Lemma non_object_line_raises_witness :
  project (__init__ ["md5"; "sections_mean_entropy"]) (PList [PDict [("md5", PStr "0abc")]])
  = RowRaised AttributeError.
Proof.
  apply (non_object_line_raises ["md5"; "sections_mean_entropy"]
           (PList [PDict [("md5", PStr "0abc")]])).
  reflexivity.
Defined.

(** What the feature loop leaves in [data]: every feature of the schema
    is bound to the scalar it resolves to, and no other key is touched. *)
Lemma for_features_data (features : list string) (json_data : pyval) :
  forall data row,
    for_features features json_data data = RowOk row ->
    forall key,
      (In key features ->
       exists x, extract json_data key = Ret (true, x)
                 /\ is_complex x = false /\ row !! key = Some x)
      /\ (~ In key features -> row !! key = data !! key).
Proof.
  induction features as [ | g rest IH]; intros data row Hrow key.
  - cbn [for_features] in Hrow. injection Hrow as <-.
    split; [intros [] | reflexivity].
  - cbn [for_features] in Hrow.
    destruct (extract json_data g) as [[status x] | e] eqn:Hx; [ | discriminate Hrow].
    destruct status; cbn [negb] in Hrow; [ | discriminate Hrow].
    destruct (is_complex x) eqn:Hscalar; [discriminate Hrow | ].
    destruct (IH _ _ Hrow key) as [Hin Hout].
    destruct (in_dec string_dec key rest) as [Hrest | Hrest].
    + split; [intros _; exact (Hin Hrest) | intros Hnot; destruct Hnot; right; exact Hrest].
    + split.
      * intros [<- | Hkey]; [ | destruct (Hrest Hkey)].
        exists x. rewrite (Hout Hrest), lookup_insert_eq. auto.
      * intros Hnot. rewrite (Hout Hrest).
        apply lookup_insert_ne. intros <-. apply Hnot. left. reflexivity.
Qed.

(** X15. A row is written for a record exactly when every feature of the
    schema resolves to a scalar, and the row then holds one cell for each
    schema entry, in schema order, the cell being the value the feature
    resolves to: no cell is ever a default, a mapping or a sequence. *)
Theorem row_is_schema_of_scalars (self : EMBERJsonlToCSV) (json_data : pyval)
    (row : list pyval) :
  emitted_row self json_data = Some row <->
  Forall2 (fun feature cell =>
             extract json_data feature = Ret (true, cell) /\ is_complex cell = false)
    (_features self) row.
Proof.
  unfold emitted_row, project.
  assert (Hcells : forall data,
             for_features (_features self) json_data ∅ = RowOk data ->
             Forall2 (fun feature cell =>
                        extract json_data feature = Ret (true, cell)
                        /\ is_complex cell = false)
               (_features self) (row_cells (_features self) data)).
  { intros data Hdata. unfold row_cells.
    pose proof (for_features_data _ _ _ _ Hdata) as Hkeys.
    generalize (fun key Hin => proj1 (Hkeys key) Hin). clear Hkeys Hdata.
    induction (_features self) as [ | g rest IH]; intros Hkeys; [constructor | ].
    cbn [map]. constructor.
    - destruct (Hkeys g (or_introl eq_refl)) as (x & Hx & Hscalar & ->). auto.
    - apply IH. intros key Hin. apply Hkeys. right. exact Hin. }
  assert (Hunique : forall features row1 row2,
             Forall2 (fun feature cell =>
                        extract json_data feature = Ret (true, cell)
                        /\ is_complex cell = false) features row1 ->
             Forall2 (fun feature cell =>
                        extract json_data feature = Ret (true, cell)
                        /\ is_complex cell = false) features row2 ->
             row1 = row2).
  { intros features row1 row2 H1. revert row2.
    induction H1 as [ | g c1 rest r1 [Hc1 _] _ IH]; intros row2 H2;
      inversion H2 as [ | ? c2 ? r2 [Hc2 _] Hrest]; subst; [reflexivity | ].
    rewrite Hc1 in Hc2. injection Hc2 as <-. f_equal. exact (IH _ Hrest). }
  split.
  - destruct (for_features (_features self) json_data ∅) as [data | | | ] eqn:Hdata;
      try discriminate.
    intros [= <-]. exact (Hcells data eq_refl).
  - intros Hrow.
    assert (Hscalars : Forall (resolves_scalar json_data) (_features self)).
    { clear Hcells Hunique. induction Hrow as [ | g c rest r [Hc Hs] _ IH];
        constructor; [exists c; auto | exact IH]. }
    destruct (for_features_pass (_features self) [] json_data Hscalars ∅) as [data Hdata].
    rewrite app_nil_r in Hdata. cbn [for_features] in Hdata. rewrite Hdata. f_equal.
    exact (Hunique _ _ _ (Hcells data Hdata) Hrow).
Qed.

(** X16. Every schema the constructor builds asks for ["label"], so a
    record in which ["label"] is found nowhere never yields a row. *)
Theorem record_without_label_has_no_row (features : list string) (json_data : pyval) :
  _search_and_get json_data "label" = Ret (false, PNone) ->
  emitted_row (__init__ features) json_data = None.
Proof.
  intros Hmiss.
  destruct (emitted_row (__init__ features) json_data) as [row | ] eqn:Hrow;
    [exfalso | reflexivity].
  unfold emitted_row, project in Hrow.
  destruct (for_features _ json_data ∅) as [data | | | ] eqn:Hdata; try discriminate Hrow.
  apply for_features_row in Hdata. rewrite Forall_forall in Hdata.
  destruct (Hdata target) as (x & Hx & _).
  - destruct (init_schema features) as [others ->]. apply list_elem_of_In, in_or_app.
    right. left. reflexivity.
  - change (extract json_data target) with (_search_and_get json_data "label") in Hx.
    rewrite Hmiss in Hx. discriminate Hx.
Qed.

Lemma record_without_label_has_no_row_witness :
  emitted_row (__init__ ["md5"]) (PDict [("md5", PStr "0abc")]) = None.
Proof.
  apply (record_without_label_has_no_row ["md5"] (PDict [("md5", PStr "0abc")])).
  reflexivity.
Defined.

(** X17. In every row written under a schema the constructor builds, the
    last cell is the value found for ["label"] by the generic search. *)
Theorem label_is_last_cell (features : list string) (json_data : pyval)
    (row : list pyval) :
  emitted_row (__init__ features) json_data = Some row ->
  exists value,
    _search_and_get json_data "label" = Ret (true, value) /\ last row = Some value.
Proof.
  intros Hrow. unfold emitted_row, project in Hrow.
  destruct (for_features _ json_data ∅) as [data | | | ] eqn:Hdata; try discriminate Hrow.
  injection Hrow as <-.
  destruct (proj1 (for_features_data _ _ _ _ Hdata target)) as (x & Hx & _ & Hlookup).
  { destruct (init_schema features) as [others ->]. apply in_or_app.
    right. left. reflexivity. }
  exists x. split; [exact Hx | ].
  unfold row_cells. rewrite map_app. cbn [map]. rewrite last_snoc, Hlookup. reflexivity.
Qed.

Lemma label_is_last_cell_witness :
  exists value,
    _search_and_get sample_directories "label" = Ret (true, value)
    /\ last [PInt 10; PInt 1] = Some value.
Proof.
  apply (label_is_last_cell ["label"; "export_size"] sample_directories [PInt 10; PInt 1]).
  reflexivity.
Defined.

(** ** More on the schema built at construction *)

Lemma filter_list_remove (features : list string) :
  List.filter (fun f => negb (String.eqb f target)) (list_remove target features)
  = List.filter (fun f => negb (String.eqb f target)) features.
Proof.
  induction features as [ | g rest IH]; [reflexivity | ].
  cbn [list_remove List.filter].
  destruct (String.eqb g target) eqn:E; cbn [negb]; [reflexivity | ].
  cbn [List.filter]. rewrite E. cbn [negb]. rewrite IH. reflexivity.
Qed.

Lemma length_list_remove (features : list string) :
  existsb (fun y => String.eqb y target) features = true ->
  S (length (list_remove target features)) = length features.
Proof.
  induction features as [ | g rest IH]; [discriminate | ].
  cbn [existsb list_remove]. destruct (String.eqb g target); cbn [orb length].
  - reflexivity.
  - intros H. rewrite (IH H). reflexivity.
Qed.

(** X18. Construction only moves ["label"]: the other feature names keep
    their places relative to one another, the schema is never empty, and
    it is one entry longer than the caller's list exactly when the
    caller's list did not name ["label"]. *)
Theorem init_keeps_other_features (features : list string) :
  List.filter (fun f => negb (String.eqb f "label")) (_features (__init__ features))
  = List.filter (fun f => negb (String.eqb f "label")) features
  /\ _features (__init__ features) <> []
  /\ length (_features (__init__ features))
     = if existsb (fun y => String.eqb y "label") features
       then length features
       else S (length features).
Proof.
  unfold __init__. cbn [_features]. fold target.
  split; [ | split].
  - rewrite List.filter_app. cbn [List.filter]. rewrite String.eqb_refl. cbn [negb].
    rewrite app_nil_r.
    destruct (existsb _ features); [apply filter_list_remove | reflexivity].
  - intros H. apply app_eq_nil in H as [_ H]. discriminate H.
  - rewrite length_app. cbn [length].
    destruct (existsb _ features) eqn:E.
    + rewrite <- (length_list_remove features E). lia.
    + lia.
Qed.

Lemma list_remove_last (others : list string) :
  occurrences target others = 0 -> list_remove target (others ++ [target]) = others.
Proof.
  induction others as [ | g rest IH]; [reflexivity | ].
  cbn [occurrences app list_remove].
  destruct (String.eqb g target); [discriminate | ].
  intros H. rewrite (IH H). reflexivity.
Qed.

(** X19. Building a converter from the schema of a converter gives the
    same schema again, provided the original list names ["label"] at most
    once.  (The constructor works on the caller's own list, so this is
    what a caller gets who passes one list object to two converters.) *)
Theorem init_twice_same_schema (features : list string) :
  occurrences "label" features <= 1 ->
  __init__ (_features (__init__ features)) = __init__ features.
Proof.
  intros Hmost. fold target in Hmost.
  assert (Hinit : exists others,
             occurrences target others = 0
             /\ _features (__init__ features) = (others ++ [target])%list).
  { unfold __init__. cbn [_features]. rewrite existsb_occurrences.
    destruct (occurrences target features) as [ | k] eqn:E; cbn [Nat.eqb negb].
    - exists features. auto.
    - exists (list_remove target features). split; [ | reflexivity].
      rewrite occurrences_list_remove, E. cbn [pred]. lia. }
  destruct Hinit as (others & Hnone & Hschema).
  unfold __init__ at 1. rewrite Hschema.
  assert (Hin : existsb (fun y => String.eqb y target) (others ++ [target]) = true).
  { rewrite existsb_app. cbn [existsb]. rewrite String.eqb_refl. apply orb_true_r. }
  rewrite Hin, (list_remove_last others Hnone).
  destruct (__init__ features) as [schema]. cbn [_features] in Hschema. subst schema.
  reflexivity.
Qed.

Lemma init_twice_same_schema_witness :
  __init__ (_features (__init__ ["label"; "md5"; "machine"]))
  = __init__ ["label"; "md5"; "machine"].
Proof.
  apply (init_twice_same_schema ["label"; "md5"; "machine"]).
  cbn. lia.
Defined.

(** ** More on the conversion entry point *)

Section ConvertOutcomes.

Variable json_loads : string -> option pyval.
Variable splitext_root : string -> string.
Variable csv_line : list pyval -> string.

(** What the line loop can end in, started on a file system in which only
    the CSV file has been added: [True] with one row appended for every
    line; [False] with the CSV file gone; or an exception, with the CSV
    file left. *)
Lemma for_lines_outcome (self : EMBERJsonlToCSV) (csv_file_path : string)
    (lines : list string) (fs : gmap string (list string)) :
  fs !! csv_file_path = None ->
  forall written,
    match for_lines json_loads csv_line self csv_file_path lines
            (<[csv_file_path := written]> fs) with
    | (Ret true, fs') =>
        exists rows,
          Forall2 (line_gives_row json_loads self) lines rows
          /\ fs' = <[csv_file_path := (written ++ map csv_line rows)%list]> fs
    | (Ret false, fs') => fs' = fs
    | (Raise e, fs') => exists left_over, fs' = <[csv_file_path := left_over]> fs
    end.
Proof.
  intros Hfree.
  induction lines as [ | line lines IH]; intros written.
  - cbn [for_lines]. exists []. split; [constructor | ].
    cbn [map]. rewrite app_nil_r. reflexivity.
  - cbn [for_lines].
    destruct (json_loads line) as [json_data | ] eqn:Hline; [ | eauto].
    destruct (project self json_data) as [data | f | f | e] eqn:Hproject.
    + unfold write_line. rewrite lookup_insert_eq. cbn [default].
      rewrite insert_insert_eq.
      specialize (IH (written ++ [csv_line (row_cells (_features self) data)])%list).
      destruct (for_lines _ _ _ _ lines _) as [[[ | ] | e] fs'].
      * destruct IH as (rows & Hrows & ->).
        exists (row_cells (_features self) data :: rows). split.
        -- constructor; [ | exact Hrows].
           exists json_data. split; [exact Hline | ].
           unfold emitted_row. rewrite Hproject. reflexivity.
        -- cbn [map]. rewrite <- app_assoc. reflexivity.
      * exact IH.
      * exact IH.
    + rewrite delete_insert_eq. apply delete_id. exact Hfree.
    + rewrite delete_insert_eq. apply delete_id. exact Hfree.
    + eauto.
Qed.

(** The same for [convert] as a whole. *)
Lemma convert_outcome (self : EMBERJsonlToCSV) (fs : gmap string (list string))
    (file_path : string) :
  match convert json_loads splitext_root csv_line self fs file_path with
  | (Ret true, fs') =>
      exists lines rows,
        fs !! file_path = Some lines
        /\ fs !! (splitext_root file_path ++ ".csv") = None
        /\ Forall2 (line_gives_row json_loads self) lines rows
        /\ fs' = <[splitext_root file_path ++ ".csv" :=
                     csv_line (map PStr (_features self)) :: map csv_line rows]> fs
  | (Ret false, fs') => fs' = fs
  | (Raise e, fs') =>
      fs !! (splitext_root file_path ++ ".csv") = None
      /\ exists left_over, fs' = <[splitext_root file_path ++ ".csv" := left_over]> fs
  end.
Proof.
  unfold convert, check_file_path.
  destruct (fs !! file_path) as [lines | ] eqn:Hfile.
  2: { rewrite bool_decide_eq_false_2 by (intros [x Hx]; discriminate Hx). reflexivity. }
  rewrite bool_decide_eq_true_2 by eauto. cbn [negb].
  destruct (fs !! (splitext_root file_path ++ ".csv")) as [old | ] eqn:Hcsv.
  { rewrite bool_decide_eq_true_2 by eauto. reflexivity. }
  rewrite bool_decide_eq_false_2 by (intros [x Hx]; discriminate Hx).
  rewrite lookup_insert_ne by (intros Heq; rewrite Heq, Hfile in Hcsv; discriminate Hcsv).
  rewrite Hfile.
  pose proof (for_lines_outcome self (splitext_root file_path ++ ".csv") lines fs Hcsv
                [csv_line (map PStr (_features self))]) as Hloop.
  destruct (for_lines _ _ _ _ lines _) as [[[ | ] | e] fs'].
  - destruct Hloop as (rows & Hrows & ->). exists lines, rows. auto.
  - exact Hloop.
  - split; [reflexivity | exact Hloop].
Qed.


End ConvertOutcomes.



(** X21. [convert] returns [True] only if the source existed, the output
    path was free and every line of the source decoded to a record the
    schema projects; the CSV file then holds the header and exactly one
    line per source line. *)
Theorem convert_true_means_all_rows
    (json_loads : string -> option pyval) (splitext_root : string -> string)
    (csv_line : list pyval -> string) (self : EMBERJsonlToCSV)
    (fs : gmap string (list string)) (file_path : string) :
  fst (convert json_loads splitext_root csv_line self fs file_path) = Ret true ->
  exists lines rows,
    fs !! file_path = Some lines
    /\ fs !! (splitext_root file_path ++ ".csv") = None
    /\ Forall2 (line_gives_row json_loads self) lines rows
    /\ snd (convert json_loads splitext_root csv_line self fs file_path)
         !! (splitext_root file_path ++ ".csv")
       = Some (csv_line (map PStr (_features self)) :: map csv_line rows).
Proof.
  intros Htrue.
  pose proof (convert_outcome json_loads splitext_root csv_line self fs file_path) as Hout.
  destruct (convert _ _ _ self fs file_path) as [[[ | ] | e] fs'];
    cbn [fst] in Htrue; try discriminate Htrue.
  destruct Hout as (lines & rows & Hfile & Hcsv & Hrows & ->).
  exists lines, rows. cbn [snd]. rewrite lookup_insert_eq. auto.
Qed.

Lemma convert_true_means_all_rows_witness :
  exists lines rows,
    ({[ "data/train.jsonl" := [labelled_line] ]} : gmap string (list string))
      !! "data/train.jsonl" = Some lines
    /\ ({[ "data/train.jsonl" := [labelled_line] ]} : gmap string (list string))
         !! (posix_splitext_root "data/train.jsonl" ++ ".csv") = None
    /\ Forall2 (line_gives_row sample_loads (__init__ ["label"])) lines rows
    /\ snd (convert sample_loads posix_splitext_root sample_csv_line (__init__ ["label"])
              {[ "data/train.jsonl" := [labelled_line] ]} "data/train.jsonl")
         !! (posix_splitext_root "data/train.jsonl" ++ ".csv")
       = Some (sample_csv_line (map PStr (_features (__init__ ["label"])))
               :: map sample_csv_line rows).
Proof.
  apply (convert_true_means_all_rows sample_loads posix_splitext_root sample_csv_line
           (__init__ ["label"]) {[ "data/train.jsonl" := [labelled_line] ]}
           "data/train.jsonl").
  reflexivity.
Defined.









(** ** More on means and on failing features *)

(** X26. On a non-empty list of fewer than [2 ** 53] sections whose
    entries all yield a [float] for the field, a mean feature always
    returns, with the binary64 sum of the values, added from the left
    starting at zero, divided by the count as a float. *)
Theorem mean_of_floats_returns (json_data : pyval) (sections : list pyval)
    (floats : list spec_float) (field mean lowest highest : string) :
  In (field, mean, lowest, highest) aggregate_fields ->
  _search_and_get json_data "sections" = Ret (true, PList sections) ->
  sections <> [] ->
  (Z.of_nat (length sections) < 2 ^ 53)%Z ->
  Forall2 (fun section f => _search_and_get section field = Ret (true, PFloat f))
    sections floats ->
  exists count,
    float_of_int (Z.of_nat (length floats)) = Ret count
    /\ extract json_data mean
       = Ret (true, PFloat (SFdiv prec64 emax64
                              (fold_left (SFadd prec64 emax64) floats f_zero) count)).
Proof.
  intros Hrow Hsearch Hne Hsmall Hsections.
  destruct (aggregate_fields_extract field mean lowest highest json_data Hrow)
    as (-> & _ & _).
  destruct (sections_mean_of_floats field json_data sections floats
              Hsearch Hne Hsmall Hsections) as (count & Hcount & _ & Hmean).
  eauto.
Qed.

Lemma mean_of_floats_returns_witness :
  exists count,
    float_of_int (Z.of_nat (length [f_1_0; f_3_5])) = Ret count
    /\ extract sample_sections "sections_mean_entropy"
       = Ret (true, PFloat (SFdiv prec64 emax64
                              (fold_left (SFadd prec64 emax64) [f_1_0; f_3_5] f_zero)
                              count)).
Proof.
  refine (mean_of_floats_returns sample_sections _ [f_1_0; f_3_5]
            "entropy" "sections_mean_entropy" "sections_min_entropy"
            "sections_max_entropy" (or_introl eq_refl) eq_refl _ _ _).
  - discriminate.
  - reflexivity.
  - repeat constructor.
Defined.

Lemma fold_add_ints (zs : list Z) :
  forall acc,
    fold_step py_add (map PInt zs) (PInt acc) = Ret (PInt (fold_left Z.add zs acc)).
Proof.
  induction zs as [ | z zs IH]; intros acc; [reflexivity | ].
  cbn [map fold_step fold_left]. exact (IH _).
Qed.

(** X27. When every section yields an [int] for the field, a mean feature
    adds the values up exactly, as integers, and rounds once: it returns
    the correctly rounded quotient of the integer sum by the count, and
    can fail only by [OverflowError], never by a division by zero. *)
Theorem mean_of_ints_is_exact_sum (json_data : pyval) (sections : list pyval)
    (zs : list Z) (field mean lowest highest : string) :
  In (field, mean, lowest, highest) aggregate_fields ->
  _search_and_get json_data "sections" = Ret (true, PList sections) ->
  sections <> [] ->
  Forall2 (fun section z => _search_and_get section field = Ret (true, PInt z))
    sections zs ->
  extract json_data mean
  = (q ← int_truediv (fold_left Z.add zs 0%Z) (Z.of_nat (length zs));
     Ret (true, PFloat q))
  /\ extract json_data mean <> Raise ZeroDivisionError.
Proof.
  intros Hrow Hsearch Hne Hsections.
  destruct (aggregate_fields_extract field mean lowest highest json_data Hrow)
    as (-> & _ & _).
  assert (Hlen : length sections = length zs)
    by (clear Hsearch Hne; induction Hsections; cbn [length]; congruence).
  assert (Hfound : Forall2 (fun section x => _search_and_get section field = Ret (true, x))
                     sections (map PInt zs))
    by (clear Hsearch Hne Hlen; induction Hsections; constructor; assumption).
  assert (Hcount : Nat.eqb (length sections) 0 = false)
    by (destruct sections; [congruence | reflexivity]).
  assert (Hmean : sections_mean field json_data
                  = (q ← int_truediv (fold_left Z.add zs 0%Z) (Z.of_nat (length zs));
                     Ret (true, PFloat q))).
  { unfold sections_mean. rewrite Hsearch.
    cbn [mbind result_bind negb py_len py_iter]. rewrite Hcount.
    rewrite (for_sections_fold _ _ _ _ Hfound), (fold_add_ints zs 0%Z), Hlen.
    cbn [mbind result_bind py_truediv as_num].
    destruct (int_truediv _ _); reflexivity. }
  split; [exact Hmean | ].
  rewrite Hmean. unfold int_truediv.
  assert (Hpos : (Z.of_nat (length zs) =? 0)%Z = false).
  { rewrite <- Hlen. destruct sections; [congruence | reflexivity]. }
  rewrite Hpos.
  destruct (SFdiv_core_binary _ _ _ _ _ _) as [[q e] l].
  destruct (binary_round_aux _ _ _ _ _ _); discriminate.
Qed.

Lemma mean_of_ints_is_exact_sum_witness :
  extract sample_sections "sections_mean_rawsize"
  = Ret (true, PFloat (S754_finite false 6755399441055744 (-43))).
Proof.
  refine (proj1 (mean_of_ints_is_exact_sum sample_sections _ [512; 1024]%Z
                   "size" "sections_mean_rawsize" "sections_min_rawsize"
                   "sections_max_rawsize" (or_intror (or_introl eq_refl)) eq_refl _ _)).
  - discriminate.
  - repeat constructor.
Defined.

(** X28. The projection of a record ends on the first feature of the
    schema that does not resolve to a scalar: an exception from its
    extractor escapes, a miss is reported as "could not be extracted", a
    mapping or sequence as "complex object" -- and the features after it
    are never looked at. *)
Theorem first_failing_feature_decides (self : EMBERJsonlToCSV) (json_data : pyval)
    (before : list string) (feature : string) (after : list string) :
  _features self = (before ++ feature :: after)%list ->
  Forall (resolves_scalar json_data) before ->
  ~ resolves_scalar json_data feature ->
  project self json_data =
    match extract json_data feature with
    | Raise e => RowRaised e
    | Ret (false, _) => NotExtracted feature
    | Ret (true, _) => ComplexObject feature
    end.
Proof.
  intros Hschema Hbefore Hfails. unfold project. rewrite Hschema.
  destruct (for_features_pass before (feature :: after) json_data Hbefore ∅)
    as [data ->].
  cbn [for_features].
  destruct (extract json_data feature) as [[[ | ] value] | e] eqn:Hvalue;
    cbn [negb]; try reflexivity.
  destruct (is_complex value) eqn:Hcomplex; [reflexivity | ].
  destruct Hfails. exists value. auto.
Qed.

Lemma first_failing_feature_decides_witness :
  project (__init__ ["md5"; "iat_rva"; "sections"])
    (PDict [("md5", PStr "0abc");
            ("datadirectories", PList (map directory_entry (seq 0 7)))])
  = RowRaised IndexError.
Proof.
  refine (first_failing_feature_decides (__init__ ["md5"; "iat_rva"; "sections"])
            (PDict [("md5", PStr "0abc");
                    ("datadirectories", PList (map directory_entry (seq 0 7)))])
            ["md5"] "iat_rva" ["sections"; "label"] eq_refl _ _).
  - constructor; [ | constructor]. exists (PStr "0abc"). split; reflexivity.
  - intros (x & Hx & _). discriminate Hx.
Defined.
